(** * torch_xla IR nodes: identity hashing, sharding store, safe downcast
      and the collective-reduction node

    A shallow embedding of [torch_xla/csrc/ir.h] (class [XlaNode],
    [NodeCast]) and of [torch_xla/csrc/ops/all_reduce.cpp] (class
    [AllReduce]), with the properties of the node contract proved over it.

    Conventions.
    - [hash_t] (a 128-bit unsigned integer in the sources) is a [Z]; the
      mixing functions of [torch::lazy] are not part of this repository and
      are taken as parameters.
    - [size_t] indices and counts are [nat]; [uint32_t] dimension indices
      are [N].
    - A [std::shared_ptr<T>] that may be null is an [option T].
    - An access that the C++ code leaves undefined (indexing a vector out of
      range, [back()] of an empty vector) makes the embedded function return
      [None]. *)

From Stdlib Require Import ZArith List Bool PrimFloat Uint63 Ascii.
From Stdlib Require DecimalString DecimalZ DecimalPos.
From stdpp Require Import base gmap sets list strings relations.

Set Warnings "-register-all".
Local Open Scope Z_scope.

(** ** Basic value types *)

Definition hash_t : Type := Z.

(** [static const uint32_t default_hash_seed = (uint32_t)0x5a2d296e9;]
    the literal has 35 bits, the conversion to [uint32_t] keeps the low 32. *)
Definition default_hash_seed : hash_t := 0x5a2d296e9 `mod` 2 ^ 32.

(** [torch::lazy::OpKind]: an interned symbol, written with its qualified
    name. *)
Definition OpKind : Type := string.

(** [xla::PrimitiveType], the element types used by the nodes below. *)
Inductive PrimitiveType : Type :=
  | PRED | S8 | S16 | S32 | S64 | U8 | U16 | U32 | U64
  | F16 | BF16 | F32 | F64 | TOKEN.

(** [xla::Shape]: an array shape or a tuple of shapes. *)
Inductive Shape : Type :=
  | ArrayShape (element_type : PrimitiveType) (dimensions : list Z)
  | TupleShape (tuple_shapes : list Shape).

Definition IsTuple (s : Shape) : bool :=
  match s with TupleShape _ => true | ArrayShape _ _ => false end.

(** [xla::ShapeUtil::MakeTupleShape]. *)
Definition MakeTupleShape (shapes : list Shape) : Shape := TupleShape shapes.

(** The number of constructors of a shape. *)
Fixpoint shape_size (s : Shape) : nat :=
  match s with
  | ArrayShape _ _ => 1
  | TupleShape l => S (fold_right (fun s' acc => shape_size s' + acc)%nat 0%nat l)
  end.

(** [xla::Shape::tuple_shapes()]: the components of a tuple shape. *)
Definition tuple_shapes_of (s : Shape) : list Shape :=
  match s with TupleShape l => l | ArrayShape _ _ => [] end.

(** [xla::OpSharding], the fields that describe a placement. *)
Record OpSharding : Type := MkOpSharding {
  sharding_type : Z;
  tile_assignment_dimensions : list Z;
  tile_assignment_devices : list Z;
}.

Definition shared_ptr (A : Type) : Type := option A.
Definition nullptr {A : Type} : shared_ptr A := None.

(** ** The node

    The data members of [XlaNode] together with those of its base
    [torch::lazy::Node] that the header reads ([op()], [operands()],
    [num_outputs()]).  An operand is a [torch::lazy::Value]: a node and the
    index of one of its outputs. *)
Inductive XlaNode : Type := MkXlaNode {
  op : OpKind;
  operands : list Value;
  num_outputs : nat;
  xla_shape_ : Shape;
  node_hash_ : hash_t;
  dag_hash_ : hash_t;
  sharding_hash_ : hash_t;
  output_shardings_ : list (shared_ptr OpSharding);
  unbounded_dynamic_dims_ : gset N;
}
with Value : Type := MkValue {
  node : XlaNode;
  index : nat;
}.

(** Functional update of the three members that are mutated after
    construction. *)
Definition with_sharding (n : XlaNode)
    (store : list (shared_ptr OpSharding)) (h : hash_t) : XlaNode :=
  MkXlaNode (op n) (operands n) (num_outputs n) (xla_shape_ n)
            (node_hash_ n) (dag_hash_ n) h store (unbounded_dynamic_dims_ n).

Definition with_dynamic_dims (n : XlaNode) (dims : gset N) : XlaNode :=
  MkXlaNode (op n) (operands n) (num_outputs n) (xla_shape_ n)
            (node_hash_ n) (dag_hash_ n) (sharding_hash_ n)
            (output_shardings_ n) dims.

(** ** Accessors and mutators defined in the header *)

Section Hashing.

(** [torch::lazy::HashCombine]. *)
Variable HashCombine : hash_t -> hash_t -> hash_t.

(** [const xla::Shape& xla_shape() const { return xla_shape_; }] *)
Definition xla_shape (n : XlaNode) : Shape := xla_shape_ n.

(** [torch::lazy::hash_t node_hash() const { return node_hash_; }] *)
Definition node_hash (n : XlaNode) : hash_t := node_hash_ n.

(** [hash()]:
    if (sharding_hash_ != 0) return HashCombine(dag_hash_, sharding_hash_);
    return dag_hash_; *)
Definition hash (n : XlaNode) : hash_t :=
  if negb (sharding_hash_ n =? 0)
  then HashCombine (dag_hash_ n) (sharding_hash_ n)
  else dag_hash_ n.

(** [shapeHash() const override { return dag_hash_; }] *)
Definition shapeHash (n : XlaNode) : hash_t := dag_hash_ n.

(** [shardingHash() const { return sharding_hash_; }] *)
Definition shardingHash (n : XlaNode) : hash_t := sharding_hash_ n.

End Hashing.

(** [GetSharding(index)]:
      if (output_shardings_.size() == 0) return nullptr;
      return output_shardings_[index];
    The outer [option] is [None] when [operator[]] is used out of range. *)
Definition GetSharding (n : XlaNode) (index : nat)
    : option (shared_ptr OpSharding) :=
  if (length (output_shardings_ n) =? 0)%nat
  then Some nullptr
  else output_shardings_ n !! index.

(** [ClearSharding()]:
      output_shardings_.clear();
      sharding_hash_ = 0; *)
Definition ClearSharding (n : XlaNode) : XlaNode :=
  with_sharding n [] 0.

(** [MarkDynamicDimension(dim)]: [unbounded_dynamic_dims_.insert(dim);] *)
Definition MarkDynamicDimension (n : XlaNode) (dim : N) : XlaNode :=
  with_dynamic_dims n ({[ dim ]} ∪ unbounded_dynamic_dims_ n).

(** [dynamic_dims()] *)
Definition dynamic_dims (n : XlaNode) : gset N := unbounded_dynamic_dims_ n.

(** ** Construction and the sharding setter

    The constructors, [GetOpHash], [SetSharding] and [UpdateShardingHash]
    are declared in the header and defined in [ir.cpp]. *)

Section Construction.

Variable HashCombine : hash_t -> hash_t -> hash_t.

(** [torch::lazy::Hash] of an output index. *)
Variable Hash_index : nat -> hash_t.

(** Modelled from the spec: the body of the static member
    [GetOpHash(op, shape, hash_seed)]; the structural hash "combines
    operation kind + output shape + an operation-specific seed".  Only its
    three inputs are fixed here, the combination itself is left open. *)
Variable GetOpHash : OpKind -> Shape -> hash_t -> hash_t.

(** Modelled from the spec: the hash contributed by one operand; the dag
    hash takes "the dag hashes of all operands (and, for multi-output
    operands, the specific output index referenced)". *)
Definition operand_hash (v : Value) : hash_t :=
  HashCombine (dag_hash_ (node v)) (Hash_index (index v)).

(** Modelled from the spec: the dag hash "combines the structural hash with
    the dag hashes of all operands", in operand order. *)
Definition GetOperandHashes (ops : list Value) (h : hash_t) : hash_t :=
  fold_left (fun acc v => HashCombine acc (operand_hash v)) ops h.

(** Modelled from the spec: the constructor
    [XlaNode(op, operands, xla_shape, num_outputs, hash_seed)].
    "Construction also computes the structural hash immediately from kind +
    shape + seed, and the dag hash from structural hash + each operand's
    dag hash".  The sharding members start with the initializers of the
    header: [sharding_hash_ = 0], an empty [output_shardings_] and an empty
    [unbounded_dynamic_dims_]. *)
Definition XlaNode_new (o : OpKind) (ops : list Value) (shape : Shape)
    (n_out : nat) (hash_seed : hash_t) : XlaNode :=
  let h := GetOpHash o shape hash_seed in
  MkXlaNode o ops n_out shape h (GetOperandHashes ops h) 0 [] ∅.

(** Modelled from the spec: the constructor taking [xla_shape_fn]; the
    shape is "computed ... via a supplied shape-computing function". *)
Definition XlaNode_new_fn (o : OpKind) (ops : list Value)
    (xla_shape_fn : unit -> Shape) (n_out : nat) (hash_seed : hash_t)
    : XlaNode :=
  XlaNode_new o ops (xla_shape_fn tt) n_out hash_seed.

(** Modelled from the spec: the leaf constructor
    [XlaNode(op, xla_shape, num_outputs, hash_seed)], a node without
    operands. *)
Definition XlaNode_leaf (o : OpKind) (shape : Shape) (n_out : nat)
    (hash_seed : hash_t) : XlaNode :=
  XlaNode_new o [] shape n_out hash_seed.

(** Modelled from the spec: the digest computed by [UpdateShardingHash()];
    the sharding hash is "derived from the sharding annotation list". *)
Variable ShardingHash : list (shared_ptr OpSharding) -> hash_t.

Definition UpdateShardingHash (n : XlaNode) : XlaNode :=
  with_sharding n (output_shardings_ n) (ShardingHash (output_shardings_ n)).

(** Modelled from the spec: [SetSharding(sharding, index)], which must
    "mutate the per-output sharding list and recompute the sharding hash";
    the list is "parallel to outputs", absent entries being null.  An index
    outside the list is a precondition violation: [None]. *)
Definition SetSharding (n : XlaNode) (sharding : OpSharding) (index : nat)
    : option XlaNode :=
  let store :=
    if (length (output_shardings_ n) =? 0)%nat
    then replicate (num_outputs n) nullptr
    else output_shardings_ n in
  if (index <? length store)%nat
  then Some (UpdateShardingHash
               (with_sharding n (<[index := Some sharding]> store)
                              (sharding_hash_ n)))
  else None.

(** The mutations a node admits after construction. *)
Inductive Mutation : Type :=
  | DoSetSharding (sharding : OpSharding) (index : nat)
  | DoClearSharding
  | DoMarkDynamicDimension (dim : N).

Definition is_sharding_mutation (m : Mutation) : bool :=
  match m with
  | DoSetSharding _ _ | DoClearSharding => true
  | DoMarkDynamicDimension _ => false
  end.

Definition apply_mutation (n : XlaNode) (m : Mutation) : option XlaNode :=
  match m with
  | DoSetSharding s i => SetSharding n s i
  | DoClearSharding => Some (ClearSharding n)
  | DoMarkDynamicDimension d => Some (MarkDynamicDimension n d)
  end.

Fixpoint apply_mutations (n : XlaNode) (ms : list Mutation)
    : option XlaNode :=
  match ms with
  | [] => Some n
  | m :: ms' =>
      match apply_mutation n m with
      | Some n' => apply_mutations n' ms'
      | None => None
      end
  end.

(** Two states of one node object: both are reached from a common state of
    the node by the mutations a node admits.  Nodes are shared, so a node
    that is an operand of two nodes may be seen by them in different
    states. *)
Definition same_node (a b : XlaNode) : Prop :=
  ∃ origin ms_a ms_b,
    apply_mutations origin ms_a = Some a
    ∧ apply_mutations origin ms_b = Some b.

(** Identical operand identities: the same operand node and the same output
    index. *)
Definition same_operand (v w : Value) : Prop :=
  same_node (node v) (node w) ∧ index v = index w.

End Construction.

(** ** The collective-reduction node ([all_reduce.cpp]) *)

(** Modelled from the spec: the reduction kinds ("reduce-kind=SUM"); the
    enumeration [AllReduceType] is declared outside the two files. *)
Inductive AllReduceType : Type :=
  | kSum | kMin | kMax | kMul | kOr | kAnd.

(** [torch::lazy::GetEnumValue]: the underlying integer of the enumerator. *)
Definition GetEnumValue (t : AllReduceType) : Z :=
  match t with
  | kSum => 0 | kMin => 1 | kMax => 2 | kMul => 3 | kOr => 4 | kAnd => 5
  end.

(** The operation kind [xla_cross_replica_sum] of [ops/xla_ops.h]. *)
Definition xla_cross_replica_sum : OpKind := "xla::cross_replica_sum"%string.

(** Modelled from the spec: the default member initializer of [has_token_]
    in [all_reduce.h].  The operand-list constructor does not mention the
    member, and that form is the one "with a trailing ordering token". *)
Definition has_token_default : bool := true.

(** The class [AllReduce]: the base sub-object and the members the
    constructors initialise. *)
Record AllReduce : Type := MkAllReduce {
  base : XlaNode;
  reduce_type_ : AllReduceType;
  scale_ : float;
  groups_ : list (list Z);
  pin_layout_ : bool;
  has_token_ : bool;
}.

(** A backend operation handle, [xla::XlaOp]. *)
Definition XlaOp : Type := Z.
Definition XlaOpVector : Type := list XlaOp.

Section CollectiveReduction.

Variable HashCombine : hash_t -> hash_t -> hash_t.
Variable Hash_index : nat -> hash_t.
Variable GetOpHash : OpKind -> Shape -> hash_t -> hash_t.

(** [const xla::Shape& GetXlaShape(const torch::lazy::Value& value)],
    declared in the header: the shape of the output a value refers to. *)
Variable GetXlaShape : Value -> Shape.

(** [torch::lazy::MHash] at the two argument lists the constructors use. *)
Variable MHash4 : Z -> float -> list (list Z) -> bool -> hash_t.
Variable MHash3 : Z -> float -> list (list Z) -> hash_t.

(** Modelled from the spec: [GetOperandListWithToken], the operand list
    "with a trailing ordering token". *)
Definition GetOperandListWithToken (ops : list Value) (token : Value)
    : list Value :=
  ops ++ [token].

(** [NodeOutputShape(operands, token)]:
      for (auto& operand : operands)
        tuple_shapes.push_back(GetXlaShape(operand));
      tuple_shapes.push_back(GetXlaShape(token));
      return xla::ShapeUtil::MakeTupleShape(tuple_shapes); *)
Definition NodeOutputShape (ops : list Value) (token : Value) : Shape :=
  let tuple_shapes :=
    fold_left (fun acc operand => acc ++ [GetXlaShape operand]) ops [] in
  let tuple_shapes := tuple_shapes ++ [GetXlaShape token] in
  MakeTupleShape tuple_shapes.

(** [AllReduce(reduce_type, operands, token, scale, groups, pin_layout)] *)
Definition AllReduce_new (reduce_type : AllReduceType) (ops : list Value)
    (token : Value) (scale : float) (groups : list (list Z))
    (pin_layout : bool) : AllReduce :=
  {| base :=
       XlaNode_new_fn HashCombine Hash_index GetOpHash
         xla_cross_replica_sum (GetOperandListWithToken ops token)
         (fun _ => NodeOutputShape ops token)
         (length ops + 1)
         (MHash4 (GetEnumValue reduce_type) scale groups pin_layout);
     reduce_type_ := reduce_type;
     scale_ := scale;
     groups_ := groups;
     pin_layout_ := pin_layout;
     has_token_ := has_token_default |}.

(** [AllReduce(reduce_type, operand, scale, groups)] *)
Definition AllReduce_new1 (reduce_type : AllReduceType) (operand : Value)
    (scale : float) (groups : list (list Z)) : AllReduce :=
  {| base :=
       XlaNode_new HashCombine Hash_index GetOpHash
         xla_cross_replica_sum [operand] (GetXlaShape operand) 1
         (MHash3 (GetEnumValue reduce_type) scale groups);
     reduce_type_ := reduce_type;
     scale_ := scale;
     groups_ := groups;
     pin_layout_ := false;
     has_token_ := false |}.

(** [AllReduce::Clone(operands)]:
      std::vector<Value> operand_list(operands.begin(), operands.end() - 1);
      return MakeNode<AllReduce>(reduce_type_, operand_list,
                                 operands.back(), scale_, groups_,
                                 pin_layout_);
    [operands.end() - 1] and [operands.back()] are undefined on an empty
    list: [None]. *)
Definition AllReduce_Clone (a : AllReduce) (ops : list Value)
    : option AllReduce :=
  match last ops with
  | None => None
  | Some back =>
      let operand_list := take (length ops - 1) ops in
      Some (AllReduce_new (reduce_type_ a) operand_list back
                          (scale_ a) (groups_ a) (pin_layout_ a))
  end.

(** The data operands of a collective-reduction node: every operand but
    the token, when it carries one. *)
Definition data_operands (a : AllReduce) : list Value :=
  if has_token_ a
  then take (length (operands (base a)) - 1) (operands (base a))
  else operands (base a).

End CollectiveReduction.

(** ** Lowering of the collective-reduction node *)

Section Lowering.

(** The lowering context and the backend builder are collaborators of
    the node; they are parameters here.  [GetOutputOp] may update the
    context, [AssignOutputOp] records the handle of one output. *)
Variable LoweringContext : Type.
Variable GetOutputOp : LoweringContext -> Value -> XlaOp * LoweringContext.
Variable AssignOutputOp :
  LoweringContext -> XlaNode -> nat -> XlaOp -> LoweringContext.

(** [BuildAllReduce(reduce_type, input, scale, groups)] and
    [BuildAllReduce(reduce_type, inputs, token, scale, groups, pin_layout)]
    of [cross_replica_reduces]. *)
Variable BuildAllReduce :
  AllReduceType -> XlaOp -> float -> list (list Z) -> XlaOp.
Variable BuildAllReduce_token :
  AllReduceType -> list XlaOp -> XlaOp -> float -> list (list Z) -> bool ->
  list XlaOp.

(** Lowering threads the context and stops at an undefined access. *)
Definition Lowered (A : Type) : Type :=
  LoweringContext -> option (A * LoweringContext).

Definition ret {A : Type} (x : A) : Lowered A :=
  fun loctx => Some (x, loctx).

Definition bind {A B : Type} (m : Lowered A) (k : A -> Lowered B)
    : Lowered B :=
  fun loctx =>
    match m loctx with
    | Some (x, loctx') => k x loctx'
    | None => None
    end.

Definition at_index {A : Type} (o : option A) : Lowered A :=
  fun loctx =>
    match o with
    | Some x => Some (x, loctx)
    | None => None
    end.

Definition get_output_op (v : Value) : Lowered XlaOp :=
  fun loctx => Some (GetOutputOp loctx v).

Local Notation "'do' x <- m ; k" := (bind m (fun x => k))
  (at level 10, x name, m at level 100, k at level 200).

(** Modelled from the spec: [ReturnOp(op, loctx)], the "return" operation
    by which a node registers its produced handle with the context. *)
Definition ReturnOp (n : XlaNode) (o : XlaOp) : Lowered XlaOpVector :=
  fun loctx => Some ([o], AssignOutputOp loctx n 0%nat o).

Fixpoint assign_outputs (n : XlaNode) (i : nat) (ops : list XlaOp)
    (loctx : LoweringContext) : LoweringContext :=
  match ops with
  | [] => loctx
  | o :: ops' => assign_outputs n (S i) ops' (AssignOutputOp loctx n i o)
  end.

(** Modelled from the spec: [ReturnOps(ops, loctx)], "registering each
    with the context so later nodes referencing this node as an operand
    can retrieve them". *)
Definition ReturnOps (n : XlaNode) (ops : list XlaOp)
    : Lowered XlaOpVector :=
  fun loctx => Some (ops, assign_outputs n 0%nat ops loctx).

(** The loop of [Lower]:
      for (size_t i = 0; i + 1 < operand_list.size(); ++i)
        inputs.push_back(loctx->GetOutputOp(operand_list[i]));
    [fuel] bounds the number of iterations. *)
Fixpoint lower_inputs (operand_list : list Value) (fuel i : nat)
    (inputs : list XlaOp) : Lowered (list XlaOp) :=
  match fuel with
  | O => ret inputs
  | S fuel' =>
      if (i + 1 <? length operand_list)%nat
      then
        do operand <- at_index (operand_list !! i);
        do o <- get_output_op operand;
        lower_inputs operand_list fuel' (S i) (inputs ++ [o])
      else ret inputs
  end.

(** [AllReduce::Lower(loctx)] *)
Definition AllReduce_Lower (a : AllReduce) : Lowered XlaOpVector :=
  if negb (has_token_ a)
  then
    do operand <- at_index (operands (base a) !! 0%nat);
    do input <- get_output_op operand;
    let result :=
      BuildAllReduce (reduce_type_ a) input (scale_ a) (groups_ a) in
    ReturnOp (base a) result
  else
    let operand_list := operands (base a) in
    do inputs <- lower_inputs operand_list (length operand_list) 0%nat [];
    do back <- at_index (last operand_list);
    do token <- get_output_op back;
    ReturnOps (base a)
      (BuildAllReduce_token (reduce_type_ a) inputs token (scale_ a)
                            (groups_ a) (pin_layout_ a)).

(** Reading the handles of a list of operands in order. *)
Fixpoint get_output_ops (vs : list Value) : Lowered (list XlaOp) :=
  match vs with
  | [] => ret []
  | v :: vs' =>
      do o <- get_output_op v;
      do os <- get_output_ops vs';
      ret (o :: os)
  end.

End Lowering.

(** Modelled from the spec: the contract of the token-aware backend
    reduction call, which "returns N+1 result handles (N reduced values + an
    updated token)". *)
Definition returns_values_and_token
    (build : AllReduceType -> list XlaOp -> XlaOp -> float ->
             list (list Z) -> bool -> list XlaOp) : Prop :=
  ∀ t inputs token scale groups pin_layout,
    length (build t inputs token scale groups pin_layout)
    = S (length inputs).

(** ** Safe downcast

    [NodeCast<T>(node, op)] receives a pointer to a node object of some
    dynamic class; the classes of this development are [XlaNode] and its
    subclass [AllReduce]. *)

Inductive NodeClass : Type :=
  | Class_XlaNode
  | Class_AllReduce.

Inductive NodeObject : Type :=
  | Object_XlaNode (n : XlaNode)
  | Object_AllReduce (a : AllReduce).

Definition dynamic_class (obj : NodeObject) : NodeClass :=
  match obj with
  | Object_XlaNode _ => Class_XlaNode
  | Object_AllReduce _ => Class_AllReduce
  end.

Definition as_XlaNode (obj : NodeObject) : XlaNode :=
  match obj with
  | Object_XlaNode n => n
  | Object_AllReduce a => base a
  end.

(** [derives_from c T]: an object of dynamic class [c] is a [T]. *)
Definition derives_from (c T : NodeClass) : bool :=
  match c, T with
  | _, Class_XlaNode => true
  | Class_AllReduce, Class_AllReduce => true
  | Class_XlaNode, Class_AllReduce => false
  end.

(** The outcome of the cast: a null pointer, a pointer typed [T*], or the
    [std::bad_cast] that [dynamic_cast<const T&>] throws. *)
Inductive CastResult : Type :=
  | Cast_nullptr
  | Cast_pointer (T : NodeClass) (obj : NodeObject)
  | Cast_bad_cast.

(** [NodeCast<T>(node, op)]:
      if (op != node->op()) return nullptr;
      #ifdef NDEBUG  casted = static_cast<const T*>(node);
      #else          casted = &dynamic_cast<const T&>( *node);
      return const_cast<T*>(casted); *)
Definition NodeCast (NDEBUG : bool) (T : NodeClass) (obj : NodeObject)
    (o : OpKind) : CastResult :=
  if bool_decide (o ≠ op (as_XlaNode obj)) then Cast_nullptr
  else if NDEBUG then Cast_pointer T obj
  else if derives_from (dynamic_class obj) T then Cast_pointer T obj
  else Cast_bad_cast.

(** ** The debug string of the collective-reduction node *)

(** Decimal output of an integer, as [operator<<] and [absl::StrJoin] print
    it: a minus sign for a negative number, no leading zeros. *)
Definition show_int (z : Z) : string :=
  DecimalString.NilZero.string_of_int (Z.to_int z).

(** [operator<<] of a [bool] (no [boolalpha]). *)
Definition show_bool (b : bool) : string := if b then "1" else "0".

(** [absl::StrJoin(parts, sep)]. *)
Fixpoint StrJoin (parts : list string) (sep : string) : string :=
  match parts with
  | [] => ""
  | [x] => x
  | x :: rest => x +:+ sep +:+ StrJoin rest sep
  end.

(** The loop of [ToString], from index [i] on, [ss] being the stream:
      for (size_t i = 0; i < groups_.size(); ++i) {
        ss << (i == 0 ? "(" : ",(");
        ss << absl::StrJoin(groups_[i], ", ") << ")";
      } *)
Fixpoint groups_loop (groups : list (list Z)) (i : nat) (ss : string)
    : string :=
  match groups with
  | [] => ss
  | g :: rest =>
      let ss := ss +:+ (if (i =? 0)%nat then "(" else ",(") in
      let ss := ss +:+ StrJoin (map show_int g) ", " +:+ ")" in
      groups_loop rest (S i) ss
  end.

Section Printing.

(** [XlaNode::ToString()] of the base class and the stream output of a
    [double] are parameters. *)
Variable XlaNode_ToString : XlaNode -> string.
Variable show_double : float -> string.

(** [AllReduce::ToString()]:
      ss << XlaNode::ToString()
         << ", reduce_type=" << GetEnumValue(reduce_type_)
         << ", scale=" << scale_ << ", pin_layout=" << pin_layout_
         << ", groups=(";
      for (...) { ... }
      ss << ")"; *)
Definition AllReduce_ToString (a : AllReduce) : string :=
  let ss := XlaNode_ToString (base a) in
  let ss := ss +:+ ", reduce_type=" in
  let ss := ss +:+ show_int (GetEnumValue (reduce_type_ a)) in
  let ss := ss +:+ ", scale=" in
  let ss := ss +:+ show_double (scale_ a) in
  let ss := ss +:+ ", pin_layout=" in
  let ss := ss +:+ show_bool (pin_layout_ a) in
  let ss := ss +:+ ", groups=(" in
  let ss := groups_loop (groups_ a) 0 ss in
  ss +:+ ")".

End Printing.

(** The text of one replica group, and a list of texts each preceded by a
    separator: the two shapes the loop of [ToString] produces. *)
Definition group_string (g : list Z) : string :=
  "(" +:+ StrJoin (map show_int g) ", " +:+ ")".

Fixpoint prefixed (sep : string) (parts : list string) : string :=
  match parts with
  | [] => ""
  | x :: rest => sep +:+ x +:+ prefixed sep rest
  end.

(** The characters of a decimal number. *)
Definition is_num_char (c : ascii) : bool :=
  bool_decide (c = "-"%char) || (Ascii.leb "0" c && Ascii.leb c "9").

Fixpoint string_forallb (p : ascii -> bool) (s : string) : bool :=
  match s with
  | EmptyString => true
  | String c s' => p c && string_forallb p s'
  end.

(** ** User metadata ([ir.h]) *)

(** Conversion of an integer to [size_t], an unsigned type of [size_bits]
    bits. *)
Definition to_size_t (size_bits : Z) (x : Z) : Z := x `mod` 2 ^ size_bits.

(** [struct CustomOpNameMetaData]: the prefix and the stack depth. *)
Record CustomOpNameMetaData : Type := MkCustomOpNameMetaData {
  op_name_prefix : string;
  max_stack_depth : Z;
}.

(** [CustomOpNameMetaData(input_op_name_prefix, input_max_stack_depth)]:
      op_name_prefix(input_op_name_prefix),
      max_stack_depth(input_max_stack_depth)
    the depth is an [int], the member a [size_t]. *)
Definition CustomOpNameMetaData_new (size_bits : Z)
    (input_op_name_prefix : string) (input_max_stack_depth : Z)
    : CustomOpNameMetaData :=
  {| op_name_prefix := input_op_name_prefix;
     max_stack_depth := to_size_t size_bits input_max_stack_depth |}.

(** ** A concrete instance of the parameters

    The properties below hold for every choice of the [torch::lazy] mixing
    functions and of the lowering collaborators.  This instance fixes one
    choice, so that the embedding can be run on concrete nodes. *)

Module Ref.

Definition mask128 (x : Z) : hash_t := x `mod` 2 ^ 128.

(** A 128-bit mixing function in the style of [torch::lazy::HashCombine]. *)
Definition HashCombine (a b : hash_t) : hash_t :=
  mask128 (Z.lxor a
             (b * 0x27d4eb2f165667c5 + 0x9e3779b97f4a7c15
              + Z.shiftl a 6 + Z.shiftr a 2)).

Definition Hash_index (i : nat) : hash_t := Z.of_nat i.

Fixpoint Hash_string (s : string) : hash_t :=
  match s with
  | EmptyString => 0x165667b19e3779f9
  | String c s' => HashCombine (Z.of_N (Ascii.N_of_ascii c)) (Hash_string s')
  end.

Definition Hash_type (t : PrimitiveType) : hash_t :=
  match t with
  | PRED => 1 | S8 => 2 | S16 => 3 | S32 => 4 | S64 => 5
  | U8 => 6 | U16 => 7 | U32 => 8 | U64 => 9
  | F16 => 10 | F32 => 11 | F64 => 12 | BF16 => 16 | TOKEN => 17
  end.

Fixpoint Hash_shape (s : Shape) : hash_t :=
  match s with
  | ArrayShape t dims => fold_left HashCombine dims (Hash_type t)
  | TupleShape l =>
      fold_left (fun acc s' => HashCombine acc (Hash_shape s')) l 13
  end.

Definition GetOpHash (o : OpKind) (shape : Shape) (hash_seed : hash_t)
    : hash_t :=
  HashCombine (HashCombine (Hash_string o) (Hash_shape shape)) hash_seed.

Definition Hash_sharding (s : shared_ptr OpSharding) : hash_t :=
  match s with
  | None => 0
  | Some sh =>
      fold_left HashCombine
        (tile_assignment_dimensions sh ++ tile_assignment_devices sh)
        (sharding_type sh + 1)
  end.

Definition ShardingHash (store : list (shared_ptr OpSharding)) : hash_t :=
  fold_left (fun acc s => HashCombine acc (Hash_sharding s)) store 0x5a2d.

(** The shape of an output: the component of a tuple shape, the shape
    itself for a single-output node. *)
Definition GetXlaShape (v : Value) : Shape :=
  match xla_shape_ (node v) with
  | TupleShape l => nth (index v) l (TupleShape [])
  | s => s
  end.

Definition Hash_double (x : float) : hash_t :=
  let (m, e) := frshiftexp x in
  Uint63.to_Z (normfr_mantissa m) * 4096 + Uint63.to_Z e.

Definition Hash_groups (groups : list (list Z)) : hash_t :=
  fold_left (fun acc g => HashCombine acc (fold_left HashCombine g 1))
            groups 2.

Definition MHash3 (t : Z) (scale : float) (groups : list (list Z))
    : hash_t :=
  HashCombine t (HashCombine (Hash_double scale) (Hash_groups groups)).

Definition MHash4 (t : Z) (scale : float) (groups : list (list Z))
    (pin_layout : bool) : hash_t :=
  HashCombine t
    (HashCombine (Hash_double scale)
       (HashCombine (Hash_groups groups) (if pin_layout then 1 else 0))).

(** A lowering context that logs the registered outputs, and a builder
    whose handles are numbers. *)
Definition LoweringContext : Type := list (hash_t * nat * XlaOp).

Definition GetOutputOp (loctx : LoweringContext) (v : Value)
    : XlaOp * LoweringContext :=
  (dag_hash_ (node v) * 16 + Z.of_nat (index v), loctx).

Definition AssignOutputOp (loctx : LoweringContext) (n : XlaNode) (i : nat)
    (o : XlaOp) : LoweringContext :=
  (dag_hash_ n, i, o) :: loctx.

Definition BuildAllReduce (t : AllReduceType) (input : XlaOp)
    (scale : float) (groups : list (list Z)) : XlaOp :=
  input + 1.

Definition BuildAllReduce_token (t : AllReduceType) (inputs : list XlaOp)
    (token : XlaOp) (scale : float) (groups : list (list Z))
    (pin_layout : bool) : list XlaOp :=
  map (fun x => x + 1) inputs ++ [token + 1].

(** Concrete nodes: a device-data leaf of shape f32[4,4] and a token leaf
    of shape u32[]. *)
Definition f32_4x4 : Shape := ArrayShape F32 [4; 4].
Definition u32_scalar : Shape := ArrayShape U32 [].

Definition data_leaf : XlaNode :=
  XlaNode_leaf HashCombine Hash_index GetOpHash
    "xla::device_data"%string f32_4x4 1 default_hash_seed.

Definition token_leaf : XlaNode :=
  XlaNode_leaf HashCombine Hash_index GetOpHash
    "xla::token"%string u32_scalar 1 default_hash_seed.

Definition replicated : OpSharding := MkOpSharding 0 [] [].
Definition tiled : OpSharding := MkOpSharding 3 [2; 2] [0; 1; 2; 3].

(** The reduction of the example scenario: SUM over three f32[4,4]
    operands and a u32[] token, scale 1.0, groups [[0,1],[2,3]], layout
    not pinned. *)
Definition data_value : Value := MkValue data_leaf 0.
Definition token_value : Value := MkValue token_leaf 0.
Definition replica_groups : list (list Z) := [[0; 1]; [2; 3]].

Definition reduce3 (scale : float) : AllReduce :=
  AllReduce_new HashCombine Hash_index GetOpHash GetXlaShape MHash4
    kSum [data_value; data_value; data_value] token_value
    scale replica_groups false.

Definition all_reduce3 : AllReduce := reduce3 1.0%float.

(** The single-operand reduction over the same data operand. *)
Definition all_reduce1 : AllReduce :=
  AllReduce_new1 HashCombine Hash_index GetOpHash GetXlaShape MHash3
    kSum data_value 1.0%float replica_groups.

(** What [Clone] builds from [all_reduce1] and its own operand list. *)
Definition clone_of_all_reduce1 : AllReduce :=
  AllReduce_new HashCombine Hash_index GetOpHash GetXlaShape MHash4
    kSum [] data_value 1.0%float replica_groups false.

(** A debug string for the base node and for a [double]. *)
Definition XlaNode_ToString (n : XlaNode) : string := op n.

Definition show_double (x : float) : string := show_int (Hash_double x).

(** [all_reduce3] without the token flag. *)
Definition all_reduce3_untagged : AllReduce :=
  MkAllReduce (base all_reduce3) kSum 1.0%float replica_groups false false.

(** Nodes used to run the base-node operations: an addition of two
    operands built with [k] outputs, and the data leaf after
    [SetSharding(tiled, 0)]. *)
Definition add_node (k : nat) : XlaNode :=
  XlaNode_new HashCombine Hash_index GetOpHash
    "aten::add"%string [data_value; data_value] f32_4x4 k 0x1234.

Definition sharded_leaf : XlaNode :=
  with_sharding data_leaf [Some tiled] (ShardingHash [Some tiled]).

Definition node_after_set_and_mark : XlaNode :=
  MarkDynamicDimension
    (with_sharding (add_node 1) [Some tiled] (ShardingHash [Some tiled]))
    1%N.

(** The addition again, built while its first operand carries a sharding
    annotation, and that node after a mark and a clear. *)
Definition sharded_value : Value := MkValue sharded_leaf 0.

Definition add_node_over_sharded (k : nat) : XlaNode :=
  XlaNode_new HashCombine Hash_index GetOpHash
    "aten::add"%string [sharded_value; data_value] f32_4x4 k 0x1234.

Definition node_over_sharded_after_mark_and_clear : XlaNode :=
  ClearSharding (MarkDynamicDimension (add_node_over_sharded 2) 0%N).

Definition resharded_leaf : XlaNode :=
  with_sharding data_leaf [Some replicated]
                (ShardingHash [Some replicated]).

End Ref.

(** * Properties *)

(** ** The constant seed *)

Lemma default_hash_seed_value : default_hash_seed = 0xa2d296e9.
Proof. reflexivity. Qed.

(** ** Frame lemmas: what the mutators leave alone *)

Lemma with_sharding_frame n store h :
  node_hash_ (with_sharding n store h) = node_hash_ n
  ∧ dag_hash_ (with_sharding n store h) = dag_hash_ n
  ∧ unbounded_dynamic_dims_ (with_sharding n store h)
    = unbounded_dynamic_dims_ n.
Proof. by destruct n. Qed.

Lemma ClearSharding_frame n :
  node_hash_ (ClearSharding n) = node_hash_ n
  ∧ dag_hash_ (ClearSharding n) = dag_hash_ n.
Proof. by destruct n. Qed.

Lemma MarkDynamicDimension_frame n d :
  node_hash_ (MarkDynamicDimension n d) = node_hash_ n
  ∧ dag_hash_ (MarkDynamicDimension n d) = dag_hash_ n
  ∧ sharding_hash_ (MarkDynamicDimension n d) = sharding_hash_ n
  ∧ output_shardings_ (MarkDynamicDimension n d) = output_shardings_ n.
Proof. by destruct n. Qed.

Section NodeProperties.

Variable HashCombine : hash_t -> hash_t -> hash_t.
Variable Hash_index : nat -> hash_t.
Variable GetOpHash : OpKind -> Shape -> hash_t -> hash_t.
Variable ShardingHash : list (shared_ptr OpSharding) -> hash_t.

Lemma SetSharding_frame n sharding i n' :
  SetSharding ShardingHash n sharding i = Some n' →
  node_hash_ n' = node_hash_ n ∧ dag_hash_ n' = dag_hash_ n.
Proof.
  unfold SetSharding, UpdateShardingHash.
  destruct (_ <? _)%nat; [|discriminate].
  intros [= <-]. by destruct n.
Qed.

Lemma SetSharding_store n sharding i n' :
  SetSharding ShardingHash n sharding i = Some n' →
  output_shardings_ n' !! i = Some (Some sharding)
  ∧ sharding_hash_ n' = ShardingHash (output_shardings_ n').
Proof.
  unfold SetSharding, UpdateShardingHash.
  destruct (_ <? _)%nat eqn:Hlt; [|discriminate].
  intros [= <-]. simpl. split; [|done].
  apply list_lookup_insert_eq. by apply Nat.ltb_lt.
Qed.

(** [SetSharding] is defined exactly on the indices of the store. *)
Lemma SetSharding_defined n sharding i :
  (i < num_outputs n)%nat → output_shardings_ n = [] →
  is_Some (SetSharding ShardingHash n sharding i).
Proof.
  intros Hi Hempty. unfold SetSharding. rewrite Hempty. simpl.
  rewrite length_replicate.
  apply Nat.ltb_lt in Hi. rewrite Hi. by eexists.
Qed.

Lemma apply_mutation_frame n m n' :
  apply_mutation ShardingHash n m = Some n' →
  node_hash_ n' = node_hash_ n ∧ dag_hash_ n' = dag_hash_ n.
Proof.
  destruct m as [s i| |d]; simpl.
  - apply SetSharding_frame.
  - intros [= <-]. apply ClearSharding_frame.
  - intros [= <-]. split; apply MarkDynamicDimension_frame.
Qed.

(** The two identity hashes are fixed at construction: no sequence of
    mutations changes them. *)
Lemma apply_mutations_frame ms : ∀ n n',
  apply_mutations ShardingHash n ms = Some n' →
  node_hash_ n' = node_hash_ n ∧ dag_hash_ n' = dag_hash_ n.
Proof.
  induction ms as [|m ms IH]; intros n n'; simpl.
  - by intros [= <-].
  - destruct (apply_mutation ShardingHash n m) as [n1|] eqn:Hm;
      [|discriminate].
    intros Hrest. apply IH in Hrest as [-> ->].
    by apply apply_mutation_frame in Hm.
Qed.

(** Operands with equal dag hashes and equal output indices contribute
    alike: the dag hash only sees the operands through these two. *)
Lemma GetOperandHashes_ext (ops ops' : list Value) :
  Forall2 (fun v w => dag_hash_ (node v) = dag_hash_ (node w)
                      ∧ index v = index w) ops ops' →
  ∀ h, GetOperandHashes HashCombine Hash_index ops h
       = GetOperandHashes HashCombine Hash_index ops' h.
Proof.
  induction 1 as [|v w ops ops' [Hd Hi] _ IH]; intros h; simpl; [done|].
  replace (operand_hash HashCombine Hash_index v)
    with (operand_hash HashCombine Hash_index w)
    by (unfold operand_hash; by rewrite Hd, Hi).
  apply IH.
Qed.

Lemma same_node_hashes (a b : XlaNode) :
  same_node ShardingHash a b →
  node_hash_ a = node_hash_ b ∧ dag_hash_ a = dag_hash_ b.
Proof.
  intros (origin & ms_a & ms_b & Ha & Hb).
  apply apply_mutations_frame in Ha as [-> ->].
  apply apply_mutations_frame in Hb as [-> ->].
  done.
Qed.

Lemma same_operand_refl (v : Value) : same_operand ShardingHash v v.
Proof. split; [|done]. by exists (node v), [], []. Qed.

(** C1: two nodes constructed with the same operation kind, the same shape,
    the same hash seed and identical operand identities (the same operand
    nodes, possibly seen in different sharding or dynamic-dimension states,
    and the same output indices) have equal structural hashes and equal dag
    hashes, whatever their other construction arguments and whatever
    mutations they went through since.  The two hashes are the functions of
    the four inputs that the construction computes: the structural hash is
    [GetOpHash] of kind, shape and seed, the dag hash folds the operands'
    dag hashes and output indices into it. *)
Theorem constructed_nodes_same_identity
    (o : OpKind) (ops1 ops2 : list Value) (shape : Shape)
    (hash_seed : hash_t) (k1 k2 : nat) (ms1 ms2 : list Mutation)
    (n1 n2 : XlaNode) :
  Forall2 (same_operand ShardingHash) ops1 ops2 →
  apply_mutations ShardingHash
    (XlaNode_new HashCombine Hash_index GetOpHash o ops1 shape k1 hash_seed)
    ms1 = Some n1 →
  apply_mutations ShardingHash
    (XlaNode_new HashCombine Hash_index GetOpHash o ops2 shape k2 hash_seed)
    ms2 = Some n2 →
  node_hash n1 = node_hash n2
  ∧ shapeHash n1 = shapeHash n2
  ∧ node_hash n1 = GetOpHash o shape hash_seed
  ∧ shapeHash n1
    = GetOperandHashes HashCombine Hash_index ops1
        (GetOpHash o shape hash_seed).
Proof.
  intros Hops H1 H2. unfold node_hash, shapeHash.
  apply apply_mutations_frame in H1 as [-> ->].
  apply apply_mutations_frame in H2 as [-> ->].
  cbn [XlaNode_new node_hash_ dag_hash_].
  split; [done|]. split; [|done].
  apply GetOperandHashes_ext.
  eapply Forall2_impl; [exact Hops|].
  intros v w [Hnode Hindex]. split; [|done].
  by apply same_node_hashes in Hnode as [_ ->].
Qed.

(** C2: [hash()] is the dag hash when the sharding hash is zero, and the
    [HashCombine] of the dag hash and the sharding hash otherwise. *)
Theorem hash_spec (n : XlaNode) :
  (shardingHash n = 0 → hash HashCombine n = dag_hash_ n)
  ∧ (shardingHash n ≠ 0 →
     hash HashCombine n = HashCombine (dag_hash_ n) (shardingHash n)).
Proof.
  unfold hash, shardingHash. split; intros Hs.
  - by rewrite Hs.
  - apply Z.eqb_neq in Hs. by rewrite Hs.
Qed.

(** C3: a node that goes through sharding mutations only ([SetSharding],
    [ClearSharding]) keeps the value of [shapeHash()]. *)
Theorem sharding_mutations_keep_shapeHash (n : XlaNode) :
  shapeHash (ClearSharding n) = shapeHash n
  ∧ (∀ sharding i n',
       SetSharding ShardingHash n sharding i = Some n' →
       shapeHash n' = shapeHash n)
  ∧ (∀ ms n',
       forallb is_sharding_mutation ms = true →
       apply_mutations ShardingHash n ms = Some n' →
       shapeHash n' = shapeHash n).
Proof.
  unfold shapeHash. split; [apply ClearSharding_frame|]. split.
  - intros sharding i n' Hset. by apply SetSharding_frame in Hset as [_ ->].
  - intros ms n' _ Hms. by apply apply_mutations_frame in Hms as [_ ->].
Qed.

(** C4: after [ClearSharding()] the sharding hash is zero and [hash()] is
    [shapeHash()]; whatever the sharding store and sharding hash were
    before the call, the cleared node has the [hash()] of every unsharded
    node with the same dag hash. *)
Theorem ClearSharding_restores_identity (n : XlaNode) :
  shardingHash (ClearSharding n) = 0
  ∧ hash HashCombine (ClearSharding n) = shapeHash (ClearSharding n)
  ∧ (∀ store h,
       hash HashCombine (ClearSharding (with_sharding n store h))
       = dag_hash_ n)
  ∧ (∀ m, shardingHash m = 0 → shapeHash m = shapeHash n →
          hash HashCombine (ClearSharding n) = hash HashCombine m).
Proof.
  split; [done|]. split; [done|]. split.
  - intros store h. by destruct n.
  - intros m Hm Hdag. unfold hash, shardingHash, shapeHash in *.
    rewrite Hm. simpl. done.
Qed.

(** Set-then-clear on an unsharded node gives back its [hash()]. *)
Lemma SetSharding_ClearSharding_hash n sharding i n' :
  sharding_hash_ n = 0 →
  SetSharding ShardingHash n sharding i = Some n' →
  hash HashCombine (ClearSharding n') = hash HashCombine n.
Proof.
  intros Hn Hset. apply SetSharding_frame in Hset as [_ Hdag].
  unfold hash. rewrite Hn. simpl. done.
Qed.

End NodeProperties.

(** C9: [MarkDynamicDimension(d)] is idempotent, and it changes none of
    [hash()], [shapeHash()], [node_hash()] and [shardingHash()]. *)
Theorem MarkDynamicDimension_idempotent_hash_neutral
    (HashCombine : hash_t -> hash_t -> hash_t) (n : XlaNode) (d : N) :
  MarkDynamicDimension (MarkDynamicDimension n d) d = MarkDynamicDimension n d
  ∧ dynamic_dims (MarkDynamicDimension (MarkDynamicDimension n d) d)
    = dynamic_dims (MarkDynamicDimension n d)
  ∧ d ∈ dynamic_dims (MarkDynamicDimension n d)
  ∧ hash HashCombine (MarkDynamicDimension n d) = hash HashCombine n
  ∧ shapeHash (MarkDynamicDimension n d) = shapeHash n
  ∧ node_hash (MarkDynamicDimension n d) = node_hash n
  ∧ shardingHash (MarkDynamicDimension n d) = shardingHash n.
Proof.
  assert (Hset : ∀ X : gset N, {[d]} ∪ ({[d]} ∪ X) = {[d]} ∪ X).
  { intros X. apply set_eq. intros x. rewrite !elem_of_union. tauto. }
  destruct n as [o ops k sh nh dh sh_h store dims].
  unfold MarkDynamicDimension, with_dynamic_dims, dynamic_dims,
    hash, shapeHash, node_hash, shardingHash; simpl.
  rewrite Hset.
  split; [reflexivity|]. split; [reflexivity|].
  split; [apply elem_of_union_l, elem_of_singleton; reflexivity|].
  repeat split; reflexivity.
Qed.

(** C10: on a node whose sharding store is empty (never set, or cleared),
    [GetSharding(index)] returns null for every index, also for an index
    at or beyond the number of outputs. *)
Theorem GetSharding_empty_store (n : XlaNode) (i : nat) :
  (output_shardings_ n = [] → GetSharding n i = Some nullptr)
  ∧ GetSharding (ClearSharding n) i = Some nullptr.
Proof.
  split.
  - intros Hempty. unfold GetSharding. by rewrite Hempty.
  - by destruct n.
Qed.

(** ** Safe downcast *)

(** C8: [NodeCast] returns a null pointer when the node's operation kind
    differs from the expected one, and returns a typed pointer only when the
    kinds are equal (then the pointer is the node itself, typed as asked). *)
Theorem NodeCast_checks_kind
    (NDEBUG : bool) (T : NodeClass) (obj : NodeObject) (o : OpKind) :
  (o ≠ op (as_XlaNode obj) → NodeCast NDEBUG T obj o = Cast_nullptr)
  ∧ (∀ T' p, NodeCast NDEBUG T obj o = Cast_pointer T' p →
             o = op (as_XlaNode obj) ∧ T' = T ∧ p = obj)
  ∧ (o = op (as_XlaNode obj) → derives_from (dynamic_class obj) T = true →
     NodeCast NDEBUG T obj o = Cast_pointer T obj).
Proof.
  unfold NodeCast. split; [|split].
  - intros Hne. by rewrite bool_decide_eq_true_2.
  - intros T' p. case_bool_decide as Hop; [discriminate|].
    assert (o = op (as_XlaNode obj)) as Heq
      by (destruct (decide (o = op (as_XlaNode obj))); [done|contradiction]).
    destruct NDEBUG; [by intros [= <- <-]|].
    destruct (derives_from _ _); [by intros [= <- <-]|discriminate].
  - intros Heq Hder. rewrite bool_decide_eq_false_2 by (intros Hne; done).
    rewrite Hder. by destruct NDEBUG.
Qed.

(** In a debug build an object of the right kind but of another class makes
    the cast throw; the release build returns the pointer unchecked. *)
Lemma NodeCast_wrong_class (NDEBUG : bool) (T : NodeClass) (obj : NodeObject) :
  derives_from (dynamic_class obj) T = false →
  NodeCast NDEBUG T obj (op (as_XlaNode obj))
  = if NDEBUG then Cast_pointer T obj else Cast_bad_cast.
Proof.
  intros Hder. unfold NodeCast.
  rewrite bool_decide_eq_false_2 by (intros Hne; done).
  by rewrite Hder.
Qed.

(** ** The collective-reduction node *)

Lemma push_back_loop {A B : Type} (f : A → B) (l : list A) : ∀ acc,
  fold_left (fun acc x => acc ++ [f x]) l acc = acc ++ map f l.
Proof.
  induction l as [|x l IH]; intros acc; simpl.
  - by rewrite app_nil_r.
  - by rewrite IH, <- app_assoc.
Qed.

Lemma TupleShape_singleton_neq (s : Shape) : TupleShape [s] ≠ s.
Proof.
  intros Heq. apply (f_equal shape_size) in Heq. simpl in Heq. lia.
Qed.

Section CollectiveReductionProperties.

Variable HashCombine : hash_t -> hash_t -> hash_t.
Variable Hash_index : nat -> hash_t.
Variable GetOpHash : OpKind -> Shape -> hash_t -> hash_t.
Variable GetXlaShape : Value -> Shape.
Variable MHash4 : Z -> float -> list (list Z) -> bool -> hash_t.
Variable MHash3 : Z -> float -> list (list Z) -> hash_t.

Local Abbreviation AllReduce_new' :=
  (AllReduce_new HashCombine Hash_index GetOpHash GetXlaShape MHash4).
Local Abbreviation AllReduce_new1' :=
  (AllReduce_new1 HashCombine Hash_index GetOpHash GetXlaShape MHash3).
Local Abbreviation AllReduce_Clone' :=
  (AllReduce_Clone HashCombine Hash_index GetOpHash GetXlaShape MHash4).

Lemma NodeOutputShape_tuple ops token :
  NodeOutputShape GetXlaShape ops token
  = TupleShape (map GetXlaShape ops ++ [GetXlaShape token]).
Proof. unfold NodeOutputShape, MakeTupleShape. by rewrite push_back_loop. Qed.

(** C7: the token form built from N data operands and a token has N+1
    outputs; its shape is the tuple of the operands' shapes, in order,
    followed by the token's shape. *)
Theorem AllReduce_new_outputs
    (reduce_type : AllReduceType) (ops : list Value) (token : Value)
    (scale : float) (groups : list (list Z)) (pin_layout : bool) :
  let a := AllReduce_new' reduce_type ops token scale groups pin_layout in
  num_outputs (base a) = (length ops + 1)%nat
  ∧ xla_shape (base a)
    = TupleShape (map GetXlaShape ops ++ [GetXlaShape token])
  ∧ length (tuple_shapes_of (xla_shape (base a))) = num_outputs (base a)
  ∧ (∀ i v, ops !! i = Some v →
            tuple_shapes_of (xla_shape (base a)) !! i
            = Some (GetXlaShape v))
  ∧ tuple_shapes_of (xla_shape (base a)) !! length ops
    = Some (GetXlaShape token).
Proof.
  cbn [base AllReduce_new XlaNode_new_fn XlaNode_new xla_shape
       xla_shape_ num_outputs].
  rewrite NodeOutputShape_tuple. cbn [tuple_shapes_of].
  split; [done|]. split; [done|]. split; [|split].
  - rewrite length_app, length_map. simpl. done.
  - intros i v Hi. rewrite lookup_app_l.
    + change (map GetXlaShape ops) with (GetXlaShape <$> ops).
      by rewrite list_lookup_fmap, Hi.
    + rewrite length_map. by eapply lookup_lt_Some.
  - rewrite lookup_app_r; rewrite length_map; [|done].
    by rewrite Nat.sub_diag.
Qed.

(** The operands of the token form are the data operands followed by the
    token, and the node carries a token. *)
Lemma AllReduce_new_operands reduce_type ops token scale groups pin_layout :
  let a := AllReduce_new' reduce_type ops token scale groups pin_layout in
  operands (base a) = ops ++ [token]
  ∧ has_token_ a = true
  ∧ data_operands a = ops.
Proof.
  simpl. unfold data_operands; simpl. unfold GetOperandListWithToken.
  split; [done|]. split; [done|].
  rewrite length_app. simpl.
  replace (length ops + 1 - 1)%nat with (length ops) by lia.
  by rewrite take_app_length.
Qed.

(** [Clone] always rebuilds the token form around the split of the new
    operand list. *)
Lemma AllReduce_Clone_split (a : AllReduce) (data : list Value)
    (token : Value) :
  AllReduce_Clone' a (data ++ [token])
  = Some (AllReduce_new' (reduce_type_ a) data token
                        (scale_ a) (groups_ a) (pin_layout_ a)).
Proof.
  unfold AllReduce_Clone. rewrite last_snoc, length_app. simpl.
  replace (length data + 1 - 1)%nat with (length data) by lia.
  by rewrite take_app_length.
Qed.

Lemma AllReduce_Clone_empty (a : AllReduce) : AllReduce_Clone' a [] = None.
Proof. reflexivity. Qed.

(** Cloning a token-form node: the new list is split into all-but-last and
    last, the parameters are kept, the clone has one data operand less than
    it has operands, and as many outputs as the original when the new list
    has the arity of the old one. *)
Lemma AllReduce_Clone_token_form
    reduce_type ops token scale groups pin_layout data' token' :
  let a := AllReduce_new' reduce_type ops token scale groups pin_layout in
  AllReduce_Clone' a (data' ++ [token'])
  = Some (AllReduce_new' reduce_type data' token' scale groups pin_layout)
  ∧ ∀ a', AllReduce_Clone' a (data' ++ [token']) = Some a' →
      data_operands a' = data'
      ∧ (length (data' ++ [token']) = length (operands (base a)) →
         length (data_operands a') = (length (operands (base a)) - 1)%nat
         ∧ num_outputs (base a') = num_outputs (base a)).
Proof.
  intros a. rewrite AllReduce_Clone_split. split; [done|].
  intros a' [= <-].
  split; [apply AllReduce_new_operands|].
  intros Hlen.
  destruct (AllReduce_new_operands reduce_type data' token' scale groups
              pin_layout) as (_ & _ & ->).
  subst a. simpl in *. unfold GetOperandListWithToken in *.
  rewrite !length_app in *. simpl in *. lia.
Qed.

(** C5: cloning the single-operand, no-token form does not give that form
    back.  [Clone] takes the only new operand for the token: the clone is
    a token-form node without data operands, whose shape is a one-element
    tuple instead of the operand's shape. *)
Theorem AllReduce_Clone_no_token_form
    (reduce_type : AllReduceType) (operand operand' : Value)
    (scale : float) (groups : list (list Z)) :
  let a := AllReduce_new1' reduce_type operand scale groups in
  let expected := AllReduce_new1' reduce_type operand' scale groups in
  let a' := AllReduce_new' reduce_type [] operand' scale groups false in
  has_token_ a = false
  ∧ AllReduce_Clone' a [operand'] = Some a'
  ∧ has_token_ a' = true
  ∧ data_operands a' = []
  ∧ xla_shape (base a') = TupleShape [GetXlaShape operand']
  ∧ xla_shape (base expected) = GetXlaShape operand'
  ∧ xla_shape (base a') ≠ xla_shape (base expected)
  ∧ a' ≠ expected.
Proof.
  intros a expected a'.
  assert (Hshape : xla_shape (base a') ≠ xla_shape (base expected))
    by apply TupleShape_singleton_neq.
  repeat (split; [done|]).
  intros Heq. apply Hshape. by rewrite Heq.
Qed.

End CollectiveReductionProperties.

(** ** Lowering *)

Section LoweringProperties.

Variable LoweringContext : Type.
Variable GetOutputOp : LoweringContext -> Value -> XlaOp * LoweringContext.
Variable AssignOutputOp :
  LoweringContext -> XlaNode -> nat -> XlaOp -> LoweringContext.
Variable BuildAllReduce :
  AllReduceType -> XlaOp -> float -> list (list Z) -> XlaOp.
Variable BuildAllReduce_token :
  AllReduceType -> list XlaOp -> XlaOp -> float -> list (list Z) -> bool ->
  list XlaOp.

Local Abbreviation get_output_ops' :=
  (get_output_ops LoweringContext GetOutputOp).
Local Abbreviation lower_inputs' :=
  (lower_inputs LoweringContext GetOutputOp).
Local Abbreviation AllReduce_Lower' :=
  (AllReduce_Lower LoweringContext GetOutputOp AssignOutputOp
                   BuildAllReduce BuildAllReduce_token).

(** Reading operand handles never fails and gives one handle per
    operand. *)
Lemma get_output_ops_total (vs : list Value) : ∀ loctx,
  ∃ os loctx', get_output_ops' vs loctx = Some (os, loctx')
               ∧ length os = length vs.
Proof.
  induction vs as [|v vs IH]; intros loctx; simpl.
  - by exists [], loctx.
  - unfold bind, get_output_op.
    destruct (GetOutputOp loctx v) as [o loctx1].
    destruct (IH loctx1) as (os & loctx2 & -> & Hlen).
    exists (o :: os), loctx2. simpl. by rewrite Hlen.
Qed.

(** The index loop of [Lower] reads the handles of all operands but the
    last one, in order. *)
Lemma lower_inputs_spec (data : list Value) (tok : Value) :
  ∀ fuel i inputs loctx,
    (i ≤ length data)%nat → (length data - i ≤ fuel)%nat →
    lower_inputs' (data ++ [tok]) fuel i inputs loctx
    = match get_output_ops' (drop i data) loctx with
      | Some (os, loctx') => Some (inputs ++ os, loctx')
      | None => None
      end.
Proof.
  induction fuel as [|fuel IH]; intros i inputs loctx Hi Hfuel.
  - rewrite drop_ge by lia. simpl. unfold ret. by rewrite app_nil_r.
  - cbn [lower_inputs]. rewrite length_app.
    change (length [tok]) with 1%nat.
    destruct (i + 1 <? length data + 1)%nat eqn:Hlt.
    + apply Nat.ltb_lt in Hlt.
      destruct (lookup_lt_is_Some_2 data i) as [v Hv]; [lia|].
      rewrite (drop_S _ _ _ Hv).
      rewrite lookup_app_l by lia. rewrite Hv.
      cbn [get_output_ops].
      unfold bind, at_index, get_output_op.
      destruct (GetOutputOp loctx v) as [o loctx1].
      rewrite IH by lia.
      destruct (get_output_ops' (drop (S i) data) loctx1) as [[os l']|];
        [|done].
      unfold ret. by rewrite <- app_assoc.
    + apply Nat.ltb_ge in Hlt. rewrite drop_ge by lia.
      simpl. unfold ret. by rewrite app_nil_r.
Qed.

(** C6: lowering a no-token node returns exactly one handle, the result
    of the reduction of its operand's handle.  Lowering a token-bearing
    node with K data operands and the token as last operand passes the
    handles of the K data operands as inputs and the handle of the last
    operand as token, and returns what the token-aware reduction call
    returns: K+1 handles when that call returns one handle per input and
    the updated token. *)
Theorem AllReduce_Lower_handles (a : AllReduce) (loctx : LoweringContext) :
  (has_token_ a = false → ∀ v rest, operands (base a) = v :: rest →
     ∃ result loctx',
       AllReduce_Lower' a loctx = Some (result, loctx')
       ∧ result = [BuildAllReduce (reduce_type_ a) (GetOutputOp loctx v).1
                                  (scale_ a) (groups_ a)]
       ∧ length result = 1%nat)
  ∧ (has_token_ a = true → ∀ data tok, operands (base a) = data ++ [tok] →
     ∃ inputs loctx1 token loctx2 result loctx',
       get_output_ops' data loctx = Some (inputs, loctx1)
       ∧ length inputs = length data
       ∧ GetOutputOp loctx1 tok = (token, loctx2)
       ∧ AllReduce_Lower' a loctx = Some (result, loctx')
       ∧ result = BuildAllReduce_token (reduce_type_ a) inputs token
                    (scale_ a) (groups_ a) (pin_layout_ a)
       ∧ (returns_values_and_token BuildAllReduce_token →
          length result = (length data + 1)%nat)).
Proof.
  split.
  - intros Htok v rest Hops.
    unfold AllReduce_Lower. rewrite Htok, Hops. simpl.
    unfold bind, at_index, get_output_op, ReturnOp.
    destruct (GetOutputOp loctx v) as [input loctx1]. simpl.
    by eexists _, _.
  - intros Htok data tok Hops.
    destruct (get_output_ops_total data loctx)
      as (inputs & loctx1 & Hin & Hlen).
    destruct (GetOutputOp loctx1 tok) as [token loctx2] eqn:Htoken.
    exists inputs, loctx1, token, loctx2.
    unfold AllReduce_Lower. rewrite Htok, Hops. cbn [negb].
    unfold bind at 1.
    rewrite lower_inputs_spec by (rewrite ?length_app; simpl; lia).
    rewrite drop_0, Hin. simpl app.
    unfold bind, at_index, get_output_op, ReturnOps.
    rewrite last_snoc, Htoken.
    eexists _, _. repeat (split; [done|]).
    intros Hbuild. rewrite Hbuild. lia.
Qed.

End LoweringProperties.

(** * Concrete runs

    The theorems above applied to the nodes of [Ref]. *)

Lemma constructed_nodes_same_identity_witness :
  Forall2 (same_operand Ref.ShardingHash)
    [Ref.data_value; Ref.data_value] [Ref.sharded_value; Ref.data_value]
  ∧ hash Ref.HashCombine (node Ref.data_value)
    ≠ hash Ref.HashCombine (node Ref.sharded_value)
  ∧ apply_mutations Ref.ShardingHash (Ref.add_node 1)
      [DoSetSharding Ref.tiled 0; DoMarkDynamicDimension 1]
    = Some Ref.node_after_set_and_mark
  ∧ apply_mutations Ref.ShardingHash (Ref.add_node_over_sharded 2)
      [DoMarkDynamicDimension 0; DoClearSharding]
    = Some Ref.node_over_sharded_after_mark_and_clear
  ∧ node_hash Ref.node_after_set_and_mark
    = node_hash Ref.node_over_sharded_after_mark_and_clear
  ∧ shapeHash Ref.node_after_set_and_mark
    = shapeHash Ref.node_over_sharded_after_mark_and_clear.
Proof.
  assert (Hops : Forall2 (same_operand Ref.ShardingHash)
                   [Ref.data_value; Ref.data_value]
                   [Ref.sharded_value; Ref.data_value]).
  { constructor.
    - split; [|reflexivity].
      exists Ref.data_leaf, [], [DoSetSharding Ref.tiled 0].
      split; reflexivity.
    - constructor; [|constructor].
      split; [|reflexivity].
      exists Ref.data_leaf, [], []. split; reflexivity. }
  split; [exact Hops|].
  split; [vm_compute; discriminate|].
  split; [reflexivity|]. split; [reflexivity|].
  destruct (constructed_nodes_same_identity
              Ref.HashCombine Ref.Hash_index Ref.GetOpHash Ref.ShardingHash
              "aten::add"%string
              [Ref.data_value; Ref.data_value]
              [Ref.sharded_value; Ref.data_value]
              Ref.f32_4x4 0x1234 1 2
              [DoSetSharding Ref.tiled 0; DoMarkDynamicDimension 1]
              [DoMarkDynamicDimension 0; DoClearSharding]
              Ref.node_after_set_and_mark
              Ref.node_over_sharded_after_mark_and_clear
              Hops eq_refl eq_refl)
    as (Hnode & Hdag & _).
  split; [exact Hnode | exact Hdag].
Defined.

Lemma hash_spec_witness :
  shardingHash Ref.data_leaf = 0
  ∧ hash Ref.HashCombine Ref.data_leaf = dag_hash_ Ref.data_leaf
  ∧ shardingHash Ref.sharded_leaf ≠ 0
  ∧ hash Ref.HashCombine Ref.sharded_leaf
    = Ref.HashCombine (dag_hash_ Ref.sharded_leaf)
                      (shardingHash Ref.sharded_leaf).
Proof.
  assert (Hne : shardingHash Ref.sharded_leaf ≠ 0)
    by (vm_compute; discriminate).
  split; [reflexivity|].
  split; [apply (proj1 (hash_spec Ref.HashCombine Ref.data_leaf));
          reflexivity|].
  split; [exact Hne|].
  apply (proj2 (hash_spec Ref.HashCombine Ref.sharded_leaf)); exact Hne.
Defined.

Lemma sharding_mutations_keep_shapeHash_witness :
  SetSharding Ref.ShardingHash Ref.data_leaf Ref.tiled 0
  = Some Ref.sharded_leaf
  ∧ shapeHash Ref.sharded_leaf = shapeHash Ref.data_leaf
  ∧ forallb is_sharding_mutation
      [DoSetSharding Ref.tiled 0; DoClearSharding;
       DoSetSharding Ref.replicated 0] = true
  ∧ apply_mutations Ref.ShardingHash Ref.data_leaf
      [DoSetSharding Ref.tiled 0; DoClearSharding;
       DoSetSharding Ref.replicated 0] = Some Ref.resharded_leaf
  ∧ shapeHash Ref.resharded_leaf = shapeHash Ref.data_leaf.
Proof.
  destruct (sharding_mutations_keep_shapeHash Ref.ShardingHash Ref.data_leaf)
    as (_ & Hset & Hseq).
  split; [reflexivity|].
  split; [apply (Hset Ref.tiled 0%nat); reflexivity|].
  split; [reflexivity|]. split; [reflexivity|].
  apply (Hseq [DoSetSharding Ref.tiled 0; DoClearSharding;
               DoSetSharding Ref.replicated 0]); reflexivity.
Defined.

Lemma ClearSharding_restores_identity_witness :
  shardingHash Ref.data_leaf = 0
  ∧ shapeHash Ref.data_leaf = shapeHash Ref.sharded_leaf
  ∧ hash Ref.HashCombine Ref.sharded_leaf ≠ hash Ref.HashCombine Ref.data_leaf
  ∧ hash Ref.HashCombine (ClearSharding Ref.sharded_leaf)
    = hash Ref.HashCombine Ref.data_leaf.
Proof.
  destruct (ClearSharding_restores_identity Ref.HashCombine Ref.sharded_leaf)
    as (_ & _ & _ & Hsame).
  split; [reflexivity|]. split; [reflexivity|].
  split; [vm_compute; discriminate|].
  apply (Hsame Ref.data_leaf); reflexivity.
Defined.

Lemma GetSharding_empty_store_witness :
  output_shardings_ Ref.data_leaf = []
  ∧ num_outputs Ref.data_leaf = 1%nat
  ∧ GetSharding Ref.data_leaf 5 = Some nullptr.
Proof.
  split; [reflexivity|]. split; [reflexivity|].
  apply (proj1 (GetSharding_empty_store Ref.data_leaf 5)); reflexivity.
Defined.

Lemma NodeCast_checks_kind_witness :
  "xla::device_data"%string ≠ op (as_XlaNode (Object_AllReduce Ref.all_reduce3))
  ∧ NodeCast false Class_AllReduce (Object_AllReduce Ref.all_reduce3)
      "xla::device_data"%string = Cast_nullptr
  ∧ NodeCast false Class_AllReduce (Object_AllReduce Ref.all_reduce3)
      xla_cross_replica_sum
    = Cast_pointer Class_AllReduce (Object_AllReduce Ref.all_reduce3).
Proof.
  assert (Hne : "xla::device_data"%string
                ≠ op (as_XlaNode (Object_AllReduce Ref.all_reduce3)))
    by (vm_compute; discriminate).
  destruct (NodeCast_checks_kind false Class_AllReduce
              (Object_AllReduce Ref.all_reduce3) "xla::device_data"%string)
    as (Hnull & _ & _).
  destruct (NodeCast_checks_kind false Class_AllReduce
              (Object_AllReduce Ref.all_reduce3) xla_cross_replica_sum)
    as (_ & _ & Hptr).
  split; [exact Hne|]. split; [exact (Hnull Hne)|].
  apply Hptr; reflexivity.
Defined.

Lemma AllReduce_new_outputs_witness :
  [Ref.data_value; Ref.data_value; Ref.data_value] !! 1%nat
  = Some Ref.data_value
  ∧ num_outputs (base Ref.all_reduce3) = 4%nat
  ∧ tuple_shapes_of (xla_shape (base Ref.all_reduce3)) !! 1%nat
    = Some (ArrayShape F32 [4; 4])
  ∧ tuple_shapes_of (xla_shape (base Ref.all_reduce3)) !! 3%nat
    = Some (ArrayShape U32 []).
Proof.
  destruct (AllReduce_new_outputs Ref.HashCombine Ref.Hash_index
              Ref.GetOpHash Ref.GetXlaShape Ref.MHash4 kSum
              [Ref.data_value; Ref.data_value; Ref.data_value]
              Ref.token_value 1.0%float Ref.replica_groups false)
    as (Hn & _ & _ & Hdata & Htoken).
  split; [reflexivity|]. split; [exact Hn|].
  split; [exact (Hdata 1%nat Ref.data_value eq_refl) | exact Htoken].
Defined.

Lemma Ref_BuildAllReduce_token_contract :
  returns_values_and_token Ref.BuildAllReduce_token.
Proof.
  intros t inputs token scale groups pin_layout.
  unfold Ref.BuildAllReduce_token.
  rewrite length_app, length_map. unfold XlaOp. simpl. lia.
Qed.

Lemma AllReduce_Lower_handles_witness :
  has_token_ Ref.all_reduce1 = false
  ∧ operands (base Ref.all_reduce1) = [Ref.data_value]
  ∧ has_token_ Ref.all_reduce3 = true
  ∧ operands (base Ref.all_reduce3)
    = [Ref.data_value; Ref.data_value; Ref.data_value] ++ [Ref.token_value]
  ∧ (∃ result loctx',
       AllReduce_Lower Ref.LoweringContext Ref.GetOutputOp Ref.AssignOutputOp
         Ref.BuildAllReduce Ref.BuildAllReduce_token Ref.all_reduce1 []
       = Some (result, loctx') ∧ length result = 1%nat)
  ∧ (∃ result loctx',
       AllReduce_Lower Ref.LoweringContext Ref.GetOutputOp Ref.AssignOutputOp
         Ref.BuildAllReduce Ref.BuildAllReduce_token Ref.all_reduce3 []
       = Some (result, loctx') ∧ length result = 4%nat).
Proof.
  split; [reflexivity|]. split; [reflexivity|].
  split; [reflexivity|]. split; [reflexivity|]. split.
  - destruct (proj1 (AllReduce_Lower_handles
                       Ref.LoweringContext Ref.GetOutputOp Ref.AssignOutputOp
                       Ref.BuildAllReduce Ref.BuildAllReduce_token
                       Ref.all_reduce1 [])
                eq_refl Ref.data_value [] eq_refl)
      as (result & loctx' & Hrun & _ & Hlen).
    exists result, loctx'. split; [exact Hrun | exact Hlen].
  - destruct (proj2 (AllReduce_Lower_handles
                       Ref.LoweringContext Ref.GetOutputOp Ref.AssignOutputOp
                       Ref.BuildAllReduce Ref.BuildAllReduce_token
                       Ref.all_reduce3 [])
                eq_refl
                [Ref.data_value; Ref.data_value; Ref.data_value]
                Ref.token_value eq_refl)
      as (inputs & l1 & token & l2 & result & loctx' & _ & _ & _ & Hrun & _
          & Hlen).
    exists result, loctx'.
    split; [exact Hrun | exact (Hlen Ref_BuildAllReduce_token_contract)].
Defined.

(** The example scenario of the node contract: three f32[4,4] operands and
    a u32[] token give four outputs and the tuple of the four shapes; with
    the mixing functions of [Ref] the dag hash depends on the scale. *)
Example all_reduce3_scenario :
  num_outputs (base Ref.all_reduce3) = 4%nat
  ∧ xla_shape (base Ref.all_reduce3)
    = TupleShape [ArrayShape F32 [4; 4]; ArrayShape F32 [4; 4];
                  ArrayShape F32 [4; 4]; ArrayShape U32 []]
  ∧ shapeHash (base Ref.all_reduce3)
    ≠ shapeHash (base (Ref.reduce3 0.5%float)).
Proof.
  split; [reflexivity|]. split; [reflexivity|]. vm_compute. discriminate.
Qed.

(** [Clone] on the single-operand node of [Ref], with its own operand. *)
Example all_reduce1_clone :
  AllReduce_Clone Ref.HashCombine Ref.Hash_index Ref.GetOpHash
    Ref.GetXlaShape Ref.MHash4 Ref.all_reduce1 [Ref.data_value]
  = Some Ref.clone_of_all_reduce1
  ∧ has_token_ Ref.all_reduce1 = false
  ∧ has_token_ Ref.clone_of_all_reduce1 = true
  ∧ xla_shape (base Ref.all_reduce1) = ArrayShape F32 [4; 4]
  ∧ xla_shape (base Ref.clone_of_all_reduce1)
    = TupleShape [ArrayShape F32 [4; 4]]
  ∧ data_operands Ref.all_reduce1 = [Ref.data_value]
  ∧ data_operands Ref.clone_of_all_reduce1 = [].
Proof. repeat split. Qed.

(** The sharding store at its boundaries: a set annotation is read back, an
    index beyond a non-empty store is an undefined access, and so is setting
    an annotation beyond the outputs. *)
Example sharding_store_boundaries :
  GetSharding Ref.sharded_leaf 0 = Some (Some Ref.tiled)
  ∧ GetSharding Ref.sharded_leaf 1 = None
  ∧ GetSharding (ClearSharding Ref.sharded_leaf) 1 = Some nullptr
  ∧ SetSharding Ref.ShardingHash Ref.data_leaf Ref.tiled 1 = None.
Proof. repeat split. Qed.

(** * Further properties of the embedded code *)

(** ** The sharding store and the dynamic dimensions *)

(** X1: [GetSharding(index)] is an undefined access exactly when the store is
    not empty and the index is at or beyond its size; inside the store it
    returns the entry, null or not. *)
Theorem GetSharding_bounds (n : XlaNode) (i : nat) :
  (GetSharding n i = None
   ↔ output_shardings_ n ≠ [] ∧ (length (output_shardings_ n) ≤ i)%nat)
  ∧ (∀ s, output_shardings_ n !! i = Some s → GetSharding n i = Some s).
Proof.
  unfold GetSharding. destruct (output_shardings_ n) as [|s0 store] eqn:Hst.
  - simpl. split; [|by intros s [=]].
    split; [discriminate|]. by intros [Hne _].
  - change (length (s0 :: store) =? 0)%nat with false. cbv iota.
    split; [|done]. rewrite lookup_ge_None. split; [by intros H|by intros [_ H]].
Qed.

Lemma GetSharding_bounds_witness :
  output_shardings_ Ref.sharded_leaf ≠ []
  ∧ (length (output_shardings_ Ref.sharded_leaf) ≤ 1)%nat
  ∧ GetSharding Ref.sharded_leaf 1 = None
  ∧ GetSharding Ref.sharded_leaf 0 = Some (Some Ref.tiled).
Proof.
  assert (H1 : output_shardings_ Ref.sharded_leaf ≠ []) by discriminate.
  assert (H2 : (length (output_shardings_ Ref.sharded_leaf) ≤ 1)%nat)
    by (simpl; lia).
  split; [exact H1|]. split; [exact H2|]. split.
  - apply (proj1 (GetSharding_bounds Ref.sharded_leaf 1)). by split.
  - apply (proj2 (GetSharding_bounds Ref.sharded_leaf 0)). reflexivity.
Defined.

Lemma with_dynamic_dims_mark n d X :
  with_dynamic_dims (MarkDynamicDimension n d) X = with_dynamic_dims n X.
Proof. by destruct n. Qed.

(** X2: Marking a list of dimensions one after the other leaves the node with
    the union of its former dynamic dimensions and the marked ones: only the
    set of marked dimensions matters, not their order or repetition. *)
Theorem MarkDynamicDimension_accumulates (n : XlaNode) (dims : list N) :
  foldl MarkDynamicDimension n dims
  = with_dynamic_dims n (list_to_set dims ∪ unbounded_dynamic_dims_ n)
  ∧ dynamic_dims (foldl MarkDynamicDimension n dims)
    = list_to_set dims ∪ dynamic_dims n
  ∧ (∀ dims', (∀ d, d ∈ dims ↔ d ∈ dims') →
       foldl MarkDynamicDimension n dims = foldl MarkDynamicDimension n dims').
Proof.
  assert (Hfold : ∀ l m,
            foldl MarkDynamicDimension m l
            = with_dynamic_dims m (list_to_set l ∪ unbounded_dynamic_dims_ m)).
  { induction l as [|d l IH]; intros m.
    - simpl. rewrite union_empty_l_L. by destruct m.
    - cbn [foldl]. rewrite IH, with_dynamic_dims_mark. f_equal.
      destruct m; simpl. apply set_eq. intros x.
      rewrite !elem_of_union, elem_of_singleton. tauto. }
  split; [apply Hfold|]. split.
  - rewrite Hfold. by destruct n.
  - intros dims' Hsame. rewrite !Hfold. f_equal. f_equal.
    apply set_eq. intros x. rewrite !elem_of_list_to_set. apply Hsame.
Qed.

Lemma MarkDynamicDimension_accumulates_witness :
  (∀ d : N, d ∈ [1%N; 2%N; 1%N] ↔ d ∈ [2%N; 1%N])
  ∧ foldl MarkDynamicDimension Ref.data_leaf [1%N; 2%N; 1%N]
    = foldl MarkDynamicDimension Ref.data_leaf [2%N; 1%N].
Proof.
  assert (H : ∀ d : N, d ∈ [1%N; 2%N; 1%N] ↔ d ∈ [2%N; 1%N]).
  { intros d. rewrite !elem_of_cons, !elem_of_nil. tauto. }
  split; [exact H|].
  exact (proj2 (proj2 (MarkDynamicDimension_accumulates
                         Ref.data_leaf [1%N; 2%N; 1%N])) [2%N; 1%N] H).
Defined.

(** X3: [ClearSharding()] is idempotent, commutes with
    [MarkDynamicDimension], and touches nothing but the sharding store and
    the sharding hash. *)
Theorem ClearSharding_composes (n : XlaNode) (d : N) :
  ClearSharding (ClearSharding n) = ClearSharding n
  ∧ ClearSharding (MarkDynamicDimension n d)
    = MarkDynamicDimension (ClearSharding n) d
  ∧ dynamic_dims (ClearSharding n) = dynamic_dims n
  ∧ op (ClearSharding n) = op n
  ∧ operands (ClearSharding n) = operands n
  ∧ num_outputs (ClearSharding n) = num_outputs n
  ∧ xla_shape (ClearSharding n) = xla_shape n.
Proof. by destruct n. Qed.

(** ** Safe downcast *)

(** X4: In a debug build a returned pointer always points to an object of the
    requested class (or of a subclass), and the cast of a node of the right
    kind but of another class is a [std::bad_cast], never a pointer. *)
Theorem NodeCast_debug_sound (T : NodeClass) (obj : NodeObject) (o : OpKind) :
  (∀ T' p, NodeCast false T obj o = Cast_pointer T' p →
           derives_from (dynamic_class p) T' = true)
  ∧ (NodeCast false T obj o = Cast_bad_cast
     ↔ o = op (as_XlaNode obj) ∧ derives_from (dynamic_class obj) T = false).
Proof.
  unfold NodeCast. case_bool_decide as Hop.
  - split; [discriminate|]. split; [discriminate|]. by intros [? _].
  - assert (o = op (as_XlaNode obj)) as Heq
      by (destruct (decide (o = op (as_XlaNode obj))); [done|contradiction]).
    destruct (derives_from (dynamic_class obj) T) eqn:Hder.
    + split; [by intros T' p [= <- <-]|]. split; [discriminate|by intros [_ ?]].
    + split; [discriminate|]. done.
Qed.

Lemma NodeCast_debug_sound_witness :
  xla_cross_replica_sum = op (as_XlaNode (Object_XlaNode (base Ref.all_reduce3)))
  ∧ derives_from (dynamic_class (Object_XlaNode (base Ref.all_reduce3)))
      Class_AllReduce = false
  ∧ NodeCast false Class_AllReduce (Object_XlaNode (base Ref.all_reduce3))
      xla_cross_replica_sum = Cast_bad_cast.
Proof.
  split; [reflexivity|]. split; [reflexivity|].
  apply (proj2 (NodeCast_debug_sound Class_AllReduce
                  (Object_XlaNode (base Ref.all_reduce3))
                  xla_cross_replica_sum)).
  split; reflexivity.
Defined.



(** ** User metadata *)

(** X6: The stack depth is stored unchanged when it is not negative; a negative
    [int] becomes a depth of at least 2^31, larger than every [int]. *)
Theorem CustomOpNameMetaData_depth
    (size_bits : Z) (prefix : string) (depth : Z) :
  32 ≤ size_bits → - 2 ^ 31 ≤ depth < 2 ^ 31 →
  let m := CustomOpNameMetaData_new size_bits prefix depth in
  op_name_prefix m = prefix
  ∧ 0 ≤ max_stack_depth m < 2 ^ size_bits
  ∧ (0 ≤ depth → max_stack_depth m = depth)
  ∧ (depth < 0 → max_stack_depth m = 2 ^ size_bits + depth
                 ∧ 2 ^ 31 ≤ max_stack_depth m).
Proof.
  intros Hbits Hdepth. simpl. unfold to_size_t.
  assert (Hpow : 2 ^ 32 ≤ 2 ^ size_bits) by (apply Z.pow_le_mono_r; lia).
  assert (H32 : 2 ^ 32 = 2 * 2 ^ 31) by reflexivity.
  split; [done|]. split; [apply Z.mod_pos_bound; lia|]. split.
  - intros Hpos. apply Z.mod_small. lia.
  - intros Hneg.
    assert (Hmod : depth `mod` 2 ^ size_bits = 2 ^ size_bits + depth).
    { symmetry. apply (Z.mod_unique _ _ (-1)); lia. }
    rewrite Hmod. lia.
Qed.

Lemma CustomOpNameMetaData_depth_witness :
  32 ≤ 64 ∧ - 2 ^ 31 ≤ -1 < 2 ^ 31
  ∧ max_stack_depth (CustomOpNameMetaData_new 64 "op"%string (-1))
    = 2 ^ 64 + -1.
Proof.
  assert (H1 : 32 ≤ 64) by lia.
  assert (H2 : - 2 ^ 31 ≤ -1 < 2 ^ 31) by lia.
  split; [exact H1|]. split; [exact H2|].
  destruct (CustomOpNameMetaData_depth 64 "op"%string (-1) H1 H2)
    as (_ & _ & _ & Hneg).
  apply Hneg. lia.
Defined.

(** ** The output shape of the token form *)

Lemma shape_size_component (s : Shape) (l : list Shape) :
  s ∈ l → (shape_size s < shape_size (TupleShape l))%nat.
Proof.
  induction l as [|s' l IH]; [by intros ?%elem_of_nil|].
  intros [->|Hin]%elem_of_cons; simpl in *; [lia|]. apply IH in Hin. lia.
Qed.

(** X7: The shape computed by [NodeOutputShape] strictly nests the shape of
    every operand and of the token: it is never the shape of one of them,
    also when an operand's own shape is a tuple. *)
Theorem NodeOutputShape_strictly_nests
    (GetXlaShape : Value -> Shape) (ops : list Value) (token v : Value) :
  v ∈ ops ++ [token] →
  (shape_size (GetXlaShape v)
   < shape_size (NodeOutputShape GetXlaShape ops token))%nat
  ∧ NodeOutputShape GetXlaShape ops token ≠ GetXlaShape v.
Proof.
  intros Hin. rewrite NodeOutputShape_tuple.
  assert (Hlt : (shape_size (GetXlaShape v)
                 < shape_size (TupleShape (map GetXlaShape ops
                                           ++ [GetXlaShape token])))%nat).
  { apply shape_size_component.
    apply elem_of_app in Hin as [Hin|Hin%list_elem_of_singleton].
    - apply elem_of_app. left.
      change (map GetXlaShape ops) with (GetXlaShape <$> ops).
      by apply list_elem_of_fmap_2.
    - subst. apply elem_of_app. right. by apply list_elem_of_singleton. }
  split; [exact Hlt|]. intros Heq. rewrite Heq in Hlt. lia.
Qed.

Lemma NodeOutputShape_strictly_nests_witness :
  Ref.data_value ∈ [Ref.data_value; Ref.data_value] ++ [Ref.token_value]
  ∧ NodeOutputShape Ref.GetXlaShape [Ref.data_value; Ref.data_value]
      Ref.token_value
    ≠ Ref.GetXlaShape Ref.data_value.
Proof.
  assert (H : Ref.data_value
              ∈ [Ref.data_value; Ref.data_value] ++ [Ref.token_value])
    by (simpl; apply list_elem_of_here).
  split; [exact H|].
  exact (proj2 (NodeOutputShape_strictly_nests Ref.GetXlaShape
                  [Ref.data_value; Ref.data_value] Ref.token_value
                  Ref.data_value H)).
Defined.

(** ** Clone *)

Section CloneProperties.

Variable HashCombine : hash_t -> hash_t -> hash_t.
Variable Hash_index : nat -> hash_t.
Variable GetOpHash : OpKind -> Shape -> hash_t -> hash_t.
Variable GetXlaShape : Value -> Shape.
Variable MHash4 : Z -> float -> list (list Z) -> bool -> hash_t.

Local Abbreviation AllReduce_new' :=
  (AllReduce_new HashCombine Hash_index GetOpHash GetXlaShape MHash4).
Local Abbreviation AllReduce_Clone' :=
  (AllReduce_Clone HashCombine Hash_index GetOpHash GetXlaShape MHash4).

(** X8: [Clone] is an undefined access exactly on the empty operand list.  On
    any other list it hands every new operand to the constructor once: the
    data operands followed by the token are the new list again. *)
Theorem AllReduce_Clone_splits (a : AllReduce) (ops : list Value) :
  (AllReduce_Clone' a ops = None ↔ ops = [])
  ∧ (∀ a', AllReduce_Clone' a ops = Some a' →
       ∃ data token,
         ops = data ++ [token]
         ∧ length data = (length ops - 1)%nat
         ∧ a' = AllReduce_new' (reduce_type_ a) data token
                               (scale_ a) (groups_ a) (pin_layout_ a)).
Proof.
  destruct ops as [|token data _] using rev_ind.
  - split; [done|]. by intros a' [=].
  - rewrite AllReduce_Clone_split. split.
    + split; [discriminate|]. by destruct data.
    + intros a' [= <-]. exists data, token.
      split; [done|]. split; [|done]. rewrite length_app. simpl. lia.
Qed.

(** X9: [Clone] reads nothing of the node but its four reduction parameters
    and writes them to the clone: cloning a clone is cloning the node. *)
Theorem AllReduce_Clone_of_clone
    (a a1 : AllReduce) (ops1 : list Value) :
  AllReduce_Clone' a ops1 = Some a1 →
  reduce_type_ a1 = reduce_type_ a
  ∧ scale_ a1 = scale_ a
  ∧ groups_ a1 = groups_ a
  ∧ pin_layout_ a1 = pin_layout_ a
  ∧ ∀ ops, AllReduce_Clone' a1 ops = AllReduce_Clone' a ops.
Proof.
  unfold AllReduce_Clone. destruct (last ops1) as [back|]; [|discriminate].
  intros [= <-]. simpl. done.
Qed.

End CloneProperties.

Lemma AllReduce_Clone_splits_witness :
  AllReduce_Clone Ref.HashCombine Ref.Hash_index Ref.GetOpHash
    Ref.GetXlaShape Ref.MHash4 Ref.all_reduce3 [] = None
  ∧ ∃ data token,
      [Ref.data_value; Ref.token_value] = data ++ [token]
      ∧ length data = 1%nat.
Proof.
  destruct (AllReduce_Clone_splits Ref.HashCombine Ref.Hash_index
              Ref.GetOpHash Ref.GetXlaShape Ref.MHash4 Ref.all_reduce3 [])
    as [Hnone _].
  destruct (AllReduce_Clone_splits Ref.HashCombine Ref.Hash_index
              Ref.GetOpHash Ref.GetXlaShape Ref.MHash4 Ref.all_reduce3
              [Ref.data_value; Ref.token_value])
    as [_ Hsome].
  split; [apply Hnone; reflexivity|].
  destruct (Hsome _ eq_refl) as (data & token & Hsplit & Hlen & _).
  exists data, token. split; [exact Hsplit | exact Hlen].
Defined.

Lemma AllReduce_Clone_of_clone_witness :
  AllReduce_Clone Ref.HashCombine Ref.Hash_index Ref.GetOpHash
    Ref.GetXlaShape Ref.MHash4 Ref.all_reduce1 [Ref.data_value]
  = Some Ref.clone_of_all_reduce1
  ∧ AllReduce_Clone Ref.HashCombine Ref.Hash_index Ref.GetOpHash
      Ref.GetXlaShape Ref.MHash4 Ref.clone_of_all_reduce1
      [Ref.data_value; Ref.token_value]
    = AllReduce_Clone Ref.HashCombine Ref.Hash_index Ref.GetOpHash
        Ref.GetXlaShape Ref.MHash4 Ref.all_reduce1
        [Ref.data_value; Ref.token_value].
Proof.
  split; [reflexivity|].
  apply (AllReduce_Clone_of_clone Ref.HashCombine Ref.Hash_index
           Ref.GetOpHash Ref.GetXlaShape Ref.MHash4
           Ref.all_reduce1 Ref.clone_of_all_reduce1 [Ref.data_value]).
  reflexivity.
Defined.

(** ** The input loop of Lower *)

(** X10: On every operand list, also the empty one and the one that holds the
    token only, the loop of [Lower] stays inside the list: it reads the
    handles of all operands but the last, in order, and nothing else. *)
Theorem lower_inputs_in_bounds
    (LoweringContext : Type)
    (GetOutputOp : LoweringContext -> Value -> XlaOp * LoweringContext)
    (operand_list : list Value) (loctx : LoweringContext) :
  ∃ inputs loctx',
    lower_inputs LoweringContext GetOutputOp operand_list
      (length operand_list) 0 [] loctx = Some (inputs, loctx')
    ∧ get_output_ops LoweringContext GetOutputOp
        (take (length operand_list - 1) operand_list) loctx
      = Some (inputs, loctx')
    ∧ length inputs = (length operand_list - 1)%nat.
Proof.
  destruct operand_list as [|tok data _] using rev_ind.
  - by exists [], loctx.
  - rewrite length_app. simpl length.
    replace (length data + 1 - 1)%nat with (length data) by lia.
    rewrite take_app_length.
    rewrite lower_inputs_spec by lia. rewrite drop_0.
    destruct (get_output_ops_total LoweringContext GetOutputOp data loctx)
      as (inputs & loctx' & -> & Hlen).
    by exists inputs, loctx'.
Qed.

(** ** The debug string *)

#[local] Arguments String.append !_ _ / : simpl nomatch.

Lemma string_of_uint_digits d :
  string_forallb is_num_char (DecimalString.NilEmpty.string_of_uint d) = true.
Proof. induction d; simpl; try done. Qed.

Lemma show_int_chars z : string_forallb is_num_char (show_int z) = true.
Proof.
  unfold show_int.
  assert (H : ∀ d, string_forallb is_num_char
                     (DecimalString.NilZero.string_of_uint d) = true).
  { intros d. destruct d; try apply string_of_uint_digits. done. }
  destruct (Z.to_int z); simpl; [apply H|]. apply H.
Qed.

Lemma show_int_nonempty z : show_int z ≠ "".
Proof.
  unfold show_int. destruct (Z.to_int z) as [d|d]; simpl; [|done].
  destruct d; done.
Qed.

Lemma show_int_inj z z' : show_int z = show_int z' → z = z'.
Proof.
  unfold show_int. intros H.
  apply DecimalZ.to_int_inj.
  assert (Hok : ∀ x, Z.to_int x ≠ Decimal.Pos Decimal.Nil
                     ∧ Z.to_int x ≠ Decimal.Neg Decimal.Nil).
  { intros [|p|p]; simpl; split; try done;
      intros [= Hp]; by apply DecimalPos.Unsigned.to_uint_nonnil in Hp. }
  apply (f_equal DecimalString.NilZero.int_of_string) in H.
  rewrite !DecimalString.NilZero.isi in H by apply Hok.
  by injection H.
Qed.


Lemma append_assoc (a b c : string) : (a +:+ b) +:+ c = a +:+ (b +:+ c).
Proof. induction a as [|x a IH]; simpl; [done|]. by f_equal. Qed.

Lemma append_nil_r (a : string) : a +:+ "" = a.
Proof. induction a as [|x a IH]; simpl; [done|]. by f_equal. Qed.

Lemma StrJoin_cons (x : string) (l : list string) (sep : string) :
  StrJoin (x :: l) sep = x +:+ prefixed sep l.
Proof.
  revert x. induction l as [|y l IH]; intros x.
  - simpl. by rewrite append_nil_r.
  - change (StrJoin (x :: y :: l) sep) with (x +:+ sep +:+ StrJoin (y :: l) sep).
    rewrite IH. done.
Qed.

Lemma num_prefix_split (s1 : string) : ∀ s2 c1 c2 r1 r2,
  string_forallb is_num_char s1 = true →
  string_forallb is_num_char s2 = true →
  is_num_char c1 = false → is_num_char c2 = false →
  s1 +:+ String c1 r1 = s2 +:+ String c2 r2 →
  s1 = s2 ∧ c1 = c2 ∧ r1 = r2.
Proof.
  induction s1 as [|a s1 IH]; intros [|b s2] c1 c2 r1 r2; simpl;
    intros H1 H2 Hc1 Hc2 Heq.
  - by injection Heq as -> ->.
  - injection Heq as -> _. apply andb_true_iff in H2 as [H2 _]. congruence.
  - injection Heq as -> _. apply andb_true_iff in H1 as [H1 _]. congruence.
  - injection Heq as -> Heq.
    apply andb_true_iff in H1 as [_ H1]. apply andb_true_iff in H2 as [_ H2].
    destruct (IH s2 c1 c2 r1 r2) as (-> & -> & ->); done.
Qed.

(** The text of one group followed by its closing parenthesis. *)
Lemma joined_ints_cons (z : Z) (l : list Z) (r : string) :
  StrJoin (map show_int (z :: l)) ", " +:+ String ")" r
  = show_int z +:+
    match l with
    | [] => String ")" r
    | _ :: _ =>
        String "," (String " " (StrJoin (map show_int l) ", " +:+ String ")" r))
    end.
Proof.
  destruct l as [|y l]; [done|].
  change (map show_int (z :: y :: l))
    with (show_int z :: map show_int (y :: l)).
  change (StrJoin (show_int z :: map show_int (y :: l)) ", ")
    with (show_int z +:+ ", " +:+ StrJoin (map show_int (y :: l)) ", ").
  by rewrite !append_assoc.
Qed.

Lemma joined_ints_inj (g : list Z) : ∀ g' r r',
  StrJoin (map show_int g) ", " +:+ String ")" r
  = StrJoin (map show_int g') ", " +:+ String ")" r' →
  g = g' ∧ r = r'.
Proof.
  induction g as [|z l IH]; intros [|z' l'] r r'.
  - simpl. by intros [= ->].
  - rewrite joined_ints_cons. simpl. intros Heq.
    pose proof (show_int_chars z') as Hc. pose proof (show_int_nonempty z').
    destruct (show_int z') as [|c s]; [done|]. simpl in *.
    injection Heq as <- _. done.
  - rewrite joined_ints_cons. simpl. intros Heq.
    pose proof (show_int_chars z) as Hc. pose proof (show_int_nonempty z).
    destruct (show_int z) as [|c s]; [done|]. simpl in *.
    injection Heq as -> _. done.
  - rewrite !joined_ints_cons. intros Heq.
    assert (Hsplit : ∀ c1 c2 r1 r2,
              is_num_char c1 = false → is_num_char c2 = false →
              show_int z +:+ String c1 r1 = show_int z' +:+ String c2 r2 →
              z = z' ∧ c1 = c2 ∧ r1 = r2).
    { intros c1 c2 r1 r2 Hc1 Hc2 H.
      apply num_prefix_split in H as (Hz & Hc & Hr);
        [|apply show_int_chars|apply show_int_chars|done|done].
      by apply show_int_inj in Hz. }
    destruct l as [|y l], l' as [|y' l'];
      apply Hsplit in Heq as (-> & Hc & Hr); try done.
    destruct (IH (y' :: l') r r') as [-> ->];
      [injection Hr as Hr; exact Hr | done].
Qed.

Lemma prefixed_groups_inj (gs : list (list Z)) : ∀ gs' r r',
  prefixed "," (map group_string gs) +:+ String ")" r
  = prefixed "," (map group_string gs') +:+ String ")" r' →
  gs = gs' ∧ r = r'.
Proof.
  induction gs as [|g gs IH]; intros [|g' gs'] r r'; simpl.
  - by intros [= ->].
  - discriminate.
  - discriminate.
  - unfold group_string. rewrite !append_assoc. simpl. intros [= Heq].
    apply joined_ints_inj in Heq as [-> Heq].
    apply IH in Heq as [-> ->]. done.
Qed.

Lemma joined_groups_inj (gs gs' : list (list Z)) (r r' : string) :
  StrJoin (map group_string gs) "," +:+ String ")" r
  = StrJoin (map group_string gs') "," +:+ String ")" r' →
  gs = gs' ∧ r = r'.
Proof.
  destruct gs as [|g gs], gs' as [|g' gs'].
  - simpl. by intros [= ->].
  - change (map group_string (g' :: gs'))
      with (group_string g' :: map group_string gs').
    rewrite StrJoin_cons. simpl. discriminate.
  - change (map group_string (g :: gs))
      with (group_string g :: map group_string gs).
    rewrite StrJoin_cons. simpl. discriminate.
  - change (map group_string (g :: gs))
      with (group_string g :: map group_string gs).
    change (map group_string (g' :: gs'))
      with (group_string g' :: map group_string gs').
    rewrite !StrJoin_cons. unfold group_string at 1 3.
    rewrite !append_assoc. simpl. intros [= Heq].
    apply joined_ints_inj in Heq as [-> Heq].
    apply prefixed_groups_inj in Heq as [-> ->]. done.
Qed.

Lemma groups_loop_succ (gs : list (list Z)) : ∀ i ss,
  groups_loop gs (S i) ss = ss +:+ prefixed "," (map group_string gs).
Proof.
  induction gs as [|g gs IH]; intros i ss; simpl.
  - by rewrite append_nil_r.
  - rewrite IH. unfold group_string. by rewrite !append_assoc.
Qed.

Lemma groups_loop_joined (gs : list (list Z)) (ss : string) :
  groups_loop gs 0 ss = ss +:+ StrJoin (map group_string gs) ",".
Proof.
  destruct gs as [|g gs].
  - simpl. by rewrite append_nil_r.
  - change (map group_string (g :: gs))
      with (group_string g :: map group_string gs).
    rewrite StrJoin_cons. cbn [groups_loop Nat.eqb].
    rewrite groups_loop_succ. unfold group_string. by rewrite !append_assoc.
Qed.

Lemma append_inv_head (a b c : string) : a +:+ b = a +:+ c → b = c.
Proof. induction a as [|x a IH]; simpl; [done|]. intros [= H]. by apply IH. Qed.

(** X11: The loop of [ToString] writes the groups as a comma-separated list of
    parenthesised lists: the string is the header followed by the join of
    the group texts, and ends in [groups=()] for a node without groups. *)
Theorem AllReduce_ToString_joined
    (XlaNode_ToString : XlaNode -> string) (show_double : float -> string)
    (a : AllReduce) :
  AllReduce_ToString XlaNode_ToString show_double a
  = XlaNode_ToString (base a) +:+ ", reduce_type="
    +:+ show_int (GetEnumValue (reduce_type_ a)) +:+ ", scale="
    +:+ show_double (scale_ a) +:+ ", pin_layout="
    +:+ show_bool (pin_layout_ a) +:+ ", groups=("
    +:+ StrJoin (map group_string (groups_ a)) "," +:+ ")".
Proof.
  unfold AllReduce_ToString. rewrite groups_loop_joined.
  by rewrite !append_assoc.
Qed.

(** X12: Two collective-reduction nodes whose debug strings agree up to the
    groups, and whose debug strings are equal, have the same groups: the
    text of the groups can be read back without ambiguity. *)
Theorem AllReduce_ToString_groups_inj
    (XlaNode_ToString : XlaNode -> string) (show_double : float -> string)
    (a a' : AllReduce) :
  XlaNode_ToString (base a) = XlaNode_ToString (base a') →
  reduce_type_ a = reduce_type_ a' →
  show_double (scale_ a) = show_double (scale_ a') →
  pin_layout_ a = pin_layout_ a' →
  AllReduce_ToString XlaNode_ToString show_double a
  = AllReduce_ToString XlaNode_ToString show_double a' →
  groups_ a = groups_ a'.
Proof.
  intros Hbase Htype Hscale Hpin. unfold AllReduce_ToString.
  rewrite !groups_loop_joined, !append_assoc, Hbase, Htype, Hscale, Hpin.
  intros Heq. do 8 apply append_inv_head in Heq.
  by apply joined_groups_inj in Heq as [-> _].
Qed.

Lemma AllReduce_ToString_groups_inj_witness :
  AllReduce_ToString Ref.XlaNode_ToString Ref.show_double Ref.all_reduce3
  = AllReduce_ToString Ref.XlaNode_ToString Ref.show_double
      Ref.all_reduce3_untagged
  ∧ groups_ Ref.all_reduce3 = groups_ Ref.all_reduce3_untagged.
Proof.
  split; [reflexivity|].
  apply (AllReduce_ToString_groups_inj Ref.XlaNode_ToString Ref.show_double
           Ref.all_reduce3 Ref.all_reduce3_untagged); reflexivity.
Defined.

(** The debug string of the example reduction. *)
Example all_reduce3_ToString :
  AllReduce_ToString Ref.XlaNode_ToString Ref.show_double Ref.all_reduce3
  = ("xla::cross_replica_sum, reduce_type=0, scale="
     +:+ Ref.show_double 1.0%float
     +:+ ", pin_layout=0, groups=((0, 1),(2, 3))")%string.
Proof. reflexivity. Qed.
